(** * Shallow embedding of the creatorcoin-ai scoring and fraud-risk engine

    Python floats are modelled as exact rationals [Q]; every constant the
    code compares against is a short decimal, and the claims checked here
    do not depend on binary rounding.  Wall-clock readings ([time.time()],
    [datetime.utcnow()]) and random draws ([np.random.uniform]) are passed
    in explicitly. *)

From Stdlib Require Import QArith Qabs Qround ZArith Lia Lqa Ascii String Sorted.
From stdpp Require Import base gmap strings list.
From Stdlib Require PrimFloat.

Open Scope Q_scope.

(** Python's [<], [<=], [>], [>=] on floats, as booleans. *)
Definition qle (a b : Q) : bool := Qle_bool a b.
Definition qlt (a b : Q) : bool := negb (Qle_bool b a).

(** A Python value, where the code receives untyped JSON-like data. *)
Set Warnings "-register-all".
Set Warnings "-inexact-float".
Inductive pyval :=
| PNone
| PBool (b : bool)
| PNum (q : Q)
| PStr (s : string)
| PList (l : list pyval)
| PDict (kv : list (string * pyval)).

(** ** utils/cache.py : CacheManager *)
Module Cache.

(** One cache entry, as built by [CacheManager.set]. *)
Record entry (A : Type) := mkEntry {
  value : A;
  created_at : Q;
  last_accessed : Q;
  expires_at : Q;
  ttl : Q
}.
Arguments mkEntry {A}.
Arguments value {A}.
Arguments created_at {A}.
Arguments last_accessed {A}.
Arguments expires_at {A}.
Arguments ttl {A}.

Record manager (A : Type) := mkManager {
  cache : gmap string (entry A);
  default_ttl : Q
}.
Arguments mkManager {A}.
Arguments cache {A}.
Arguments default_ttl {A}.

(** [CacheManager.__init__(default_ttl=3600)] *)
Definition init {A} (default_ttl : Q) : manager A := mkManager ∅ default_ttl.

(** [get(key)] at wall-clock time [now]: a miss on an absent key; an
    expired entry ([now > expires_at]) is deleted and reported as a miss;
    otherwise [last_accessed] is refreshed and the value returned. *)
Definition get {A} (self : manager A) (key : string) (now : Q)
  : option A * manager A :=
  match cache self !! key with
  | None => (None, self)
  | Some e =>
      if qlt (expires_at e) now then
        (None, mkManager (delete key (cache self)) (default_ttl self))
      else
        (Some (value e),
         mkManager (<[key := mkEntry (value e) (created_at e) now
                                      (expires_at e) (ttl e)]> (cache self))
                   (default_ttl self))
  end.

(** [set(key, value, ttl=None)] at time [now]: always overwrites, returns
    [True]. *)
Definition set {A} (self : manager A) (key : string) (v : A)
    (ttl_arg : option Q) (now : Q) : bool * manager A :=
  let t := match ttl_arg with Some t => t | None => default_ttl self end in
  (true, mkManager (<[key := mkEntry v now now (now + t) t]> (cache self))
                   (default_ttl self)).

End Cache.

(** ** Python helpers used by the services *)

(** [round(x, 3)]: round half to even at three decimals. *)
Definition round3 (x : Q) : Q :=
  let y := x * 1000 in
  let f := Qfloor y in
  let r := y - inject_Z f in
  let n := if qlt r (1#2) then f
           else if qlt (1#2) r then (f + 1)%Z
           else if Z.even f then f else (f + 1)%Z in
  Qred (n # 1000).

(** [min(a, b)] and [max(a, b)]: the first argument unless the second is
    strictly smaller (larger). *)
Definition py_min (a b : Q) : Q := if qlt b a then b else a.
Definition py_max (a b : Q) : Q := if qlt a b then b else a.

(** [sum(xs)] *)
Definition qsum (xs : list Q) : Q := fold_right Qplus 0 xs.

(** [np.mean(xs)] on a non-empty list. *)
Definition qmean (xs : list Q) : Q := qsum xs / inject_Z (Z.of_nat (length xs)).

(** [np.var(xs)]: population variance. *)
Definition qvar (xs : list Q) : Q :=
  let m := qmean xs in
  qmean (map (fun x => (x - m) * (x - m)) xs).

(** [xs[-n:]] *)
Definition last_n {A} (n : nat) (xs : list A) : list A :=
  skipn (length xs - n) xs.

(** [str.lower()] on ASCII letters. *)
Definition lower_ascii (a : Ascii.ascii) : Ascii.ascii :=
  let n := Ascii.nat_of_ascii a in
  if andb (Nat.leb 65 n) (Nat.leb n 90) then Ascii.ascii_of_nat (n + 32) else a.

Fixpoint lower (s : string) : string :=
  match s with
  | EmptyString => EmptyString
  | String a s' => String (lower_ascii a) (lower s')
  end.

(** [p in s] for strings. *)
Fixpoint contains (p s : string) : bool :=
  match s with
  | EmptyString => String.prefix p s
  | String _ s' => String.prefix p s || contains p s'
  end.

(** Python truthiness of an optional number or string read with [.get]. *)
Definition truthy_num (o : option Q) : bool :=
  match o with Some x => negb (Qeq_bool x 0) | None => false end.
Definition truthy_str (o : option string) : bool :=
  match o with Some s => negb (String.eqb s "") | None => false end.

(** ** services/fraud_detector.py : FraudDetector *)
Module Fraud.

(** The [metadata] dictionary of a content record; [None] is an absent
    key. *)
Record metadata := mkMetadata {
  creation_time : option Q;
  upload_time : option Q;
  edit_count : option Q;
  md_title : option string;
  md_description : option string;
  md_duration : option Q
}.

(** The [content_data] dictionary read by [detect_content_fraud], with the
    defaults of its [.get] calls applied. *)
Record content := mkContent {
  content_id : string;
  creator_id : string;
  title : string;
  description : string;
  tags : list string;
  views : Q; likes : Q; comments : Q; shares : Q;
  quality_score : Q;
  metadata_of : metadata
}.

(** One entry of [user_behavior_patterns] as [_analyze_creator_behavior]
    uses it. *)
Record history := mkHistory {
  upload_frequency : list Q;
  quality_scores : list Q
}.

(** The mutable fields of a [FraudDetector] instance. *)
Record detector := mkDetector {
  content_hashes : gset string;
  user_behavior_patterns : gmap string history
}.

(** What one call reads from the clock and from [np.random.uniform]. *)
Record env := mkEnv {
  now : Q;
  dup_draw : Q;       (* uniform(0.0, 0.3) in _check_duplicate_content *)
  ai_draw : Q;        (* uniform(0.1, 0.4) in _detect_undisclosed_ai_content *)
  velocity_draw : Q   (* uniform(0.0, 1.0) in _detect_engagement_fraud *)
}.

Definition init : detector := mkDetector ∅ ∅.

Definition SIMILARITY_THRESHOLD : Q := 85#100.
Definition AI_CONTENT_CONFIDENCE_THRESHOLD : Q := 8#10.
Definition QUALITY_DROP_THRESHOLD : Q := 3#10.

Section WithHash.
(** [hashlib.md5(s.encode()).hexdigest()] *)
Variable md5_hexdigest : string -> string.

(** [_generate_content_hash] *)
Definition generate_content_hash (c : content) : string :=
  md5_hexdigest (title c ++ description c)%string.

(** [_check_duplicate_content] *)
Definition check_duplicate_content (self : detector) (c : content) (e : env)
  : Q * detector :=
  let h := generate_content_hash c in
  if decide (h ∈ content_hashes self) then (1, self)
  else (dup_draw e,
        mkDetector ({[h]} ∪ content_hashes self) (user_behavior_patterns self)).

End WithHash.

Definition ai_indicators : list string :=
  ["generated"; "artificial"; "synthetic"; "ai-created";
   "machine-generated"; "automated"; "algorithmic"].

(** [_detect_undisclosed_ai_content] *)
Definition detect_undisclosed_ai_content (c : content) (e : env) : Q :=
  let hay := (lower (description c) ++ lower (title c)
              ++ String.concat " " (map lower (tags c)))%string in
  let has_ai_disclosure := existsb (fun i => contains i hay) ai_indicators in
  let p := ai_draw e in
  if qlt (7#10) p && negb has_ai_disclosure then p else 0.

Record eng_result := mkEng {
  eng_detected : bool;
  eng_confidence : Q;
  eng_anomalies : list string
}.

(** [_detect_engagement_fraud] *)
Definition detect_engagement_fraud (c : content) (e : env) : eng_result :=
  let '(like_ratio, comment_ratio) :=
    if qlt 0 (views c) then (likes c / views c, comments c / views c)
    else (0, 0) in
  let '(an1, c1) := if qlt (3#10) like_ratio
                    then (["high_like_ratio"], 4#10) else ([], 0) in
  let '(an2, c2) := if qlt (1#10) comment_ratio
                    then (["high_comment_ratio"], 3#10) else ([], 0) in
  let '(an3, c3) := if qlt (8#10) (velocity_draw e)
                    then (["artificial_velocity"], 5#10) else ([], 0) in
  let confidence := 0 + c1 + c2 + c3 in
  mkEng (qlt (5#10) confidence) (round3 confidence) (an1 ++ an2 ++ an3).

Record beh_result := mkBeh {
  beh_suspicious : bool;
  beh_score : Q;
  beh_severity : string;
  beh_patterns : list string
}.

Definition empty_history : history := mkHistory [] [].

(** [_analyze_creator_behavior].  The score is a sum of 0.4 and 0.2; with
    binary floats 0.4 + 0.2 exceeds 0.6, so the severity branch
    [score > 0.6] is modelled on the float value.  The model reads the
    entries this method writes; an entry written by
    [_check_upload_rate_abuse] into the same dictionary has no
    ['upload_frequency'] key, and the source then raises a [KeyError] that
    its handler turns into a non-suspicious result without storing
    anything: that path is not modelled. *)
Definition analyze_creator_behavior (self : detector) (creator : string)
    (c : content) (e : env) : beh_result * detector :=
  let hist := default empty_history (user_behavior_patterns self !! creator) in
  let t := now e in
  let recent := filter (fun u => qlt (t - u) 3600) (upload_frequency hist) in
  let '(p1, s1, hi1) := if Nat.ltb 10 (length recent)
                        then (["excessive_upload_rate"], 4#10, true)
                        else ([], 0, false) in
  let qs := quality_scores hist in
  let '(p2, s2, hi2) := if Nat.ltb 5 (length qs) && qlt (3#10) (qvar qs)
                        then (["inconsistent_quality"], 2#10, true)
                        else ([], 0, false) in
  let score := 0 + s1 + s2 in
  let uploads := filter (fun u => qlt (t - 86400 * 7) u)
                        (upload_frequency hist ++ [t]) in
  let qs' := last_n 20 (qs ++ [quality_score c]) in
  let self' := mkDetector (content_hashes self)
                 (<[creator := mkHistory uploads qs']> (user_behavior_patterns self)) in
  let severity := if hi1 && hi2 then "high"
                  else if qlt (3#10) score then "medium" else "low" in
  (mkBeh (qlt (3#10) score) (round3 score) severity (p1 ++ p2), self').

Record qual_result := mkQual { qual_detected : bool; qual_score : Q }.

(** [_detect_quality_inconsistency] *)
Definition detect_quality_inconsistency (self : detector) (creator : string)
    (c : content) : qual_result :=
  let qs := match user_behavior_patterns self !! creator with
            | Some h => quality_scores h | None => [] end in
  let current := quality_score c in
  if Nat.ltb (length qs) 3 then mkQual false 0
  else
    let drop := qmean (last_n 5 qs) - current in
    if qlt QUALITY_DROP_THRESHOLD drop then mkQual true (round3 drop)
    else mkQual false 0.

Record meta_result := mkMeta {
  meta_detected : bool;
  meta_score : Q;
  meta_issues : list string
}.

(** [_detect_metadata_manipulation] *)
Definition detect_metadata_manipulation (m : metadata) : meta_result :=
  let '(i1, s1) :=
    match creation_time m, upload_time m with
    | Some ct, Some ut =>
        if truthy_num (Some ct) && truthy_num (Some ut)
           && qlt (86400 * 30) (Qabs (ut - ct))
        then (["timestamp_inconsistency"], 3#10) else ([], 0)
    | _, _ => ([], 0)
    end in
  let '(i2, s2) := if qlt 20 (default 0 (edit_count m))
                   then (["excessive_edits"], 2#10) else ([], 0) in
  let missing := filter negb [truthy_str (md_title m);
                              truthy_str (md_description m);
                              truthy_num (md_duration m)] in
  let '(i3, s3) := if Nat.ltb 1 (length missing)
                   then (["incomplete_metadata"], 1#10) else ([], 0) in
  let score := 0 + s1 + s2 + s3 in
  mkMeta (qlt (2#10) score) (round3 score) (i1 ++ i2 ++ i3).

Record indicator := mkIndicator {
  ind_type : string;
  ind_score : Q;
  ind_severity : string
}.

Record analysis_details := mkDetails {
  duplicate_check : Q;
  ai_content_check : Q;
  engagement_analysis : eng_result;
  behavior_analysis : beh_result;
  quality_analysis : qual_result;
  metadata_analysis : meta_result
}.

Inductive details :=
| Details (d : analysis_details)
| FallbackDetails.   (* {'error': ..., 'fallback_mode': True} *)

(** The dictionary returned by [detect_content_fraud] (the timestamp and
    the free-text descriptions are left out). *)
Record fraud_result := mkResult {
  fr_content_id : pyval;
  fr_fraud_detected : bool;
  fr_fraud_probability : Q;
  fr_risk_level : string;
  fr_confidence_score : Q;
  fr_fraud_indicators : list indicator;
  fr_recommendations : list string;
  fr_analysis_details : details
}.

(** [_generate_fraud_recommendations] *)
Definition generate_fraud_recommendations (inds : list indicator)
    (risk_level : string) : list string :=
  let base :=
    if String.eqb risk_level "high" then
      ["Suspend content pending manual review";
       "Flag creator account for investigation";
       "Implement additional verification requirements"]
    else if String.eqb risk_level "medium" then
      ["Require manual review before monetization";
       "Implement enhanced monitoring";
       "Request additional creator verification"]
    else ["Continue standard monitoring"; "No immediate action required"] in
  let types := map ind_type inds in
  let has t := existsb (String.eqb t) types in
  base
  ++ (if has "duplicate_content" then
        ["Implement content fingerprinting"; "Check against copyright databases"]
      else [])
  ++ (if has "engagement_manipulation" then
        ["Audit engagement patterns"; "Implement engagement velocity limits"]
      else [])
  ++ (if has "undisclosed_ai_content" then
        ["Require AI content disclosure"; "Implement AI detection watermarking"]
      else []).

(** [_calculate_risk_level] *)
Definition calculate_risk_level (confidence_score : Q) : string :=
  if qle (8#10) confidence_score then "high"
  else if qle (5#10) confidence_score then "medium"
  else if qle (3#10) confidence_score then "low"
  else "minimal".

(** [_get_recommended_action] *)
Definition get_recommended_action (risk_level : string) : string :=
  if String.eqb risk_level "high" then "block_content"
  else if String.eqb risk_level "medium" then "flag_for_review"
  else if String.eqb risk_level "low" then "monitor"
  else if String.eqb risk_level "minimal" then "allow"
  else "manual_review".

(** The aggregation part of [detect_content_fraud] (lines 49-151), given
    the six check results in the order the code computes them.  The
    confidence is summed in exact rationals; where the float sum of the
    contributions rounds across a risk threshold (0.4 + 0.2 + 0.1 is
    0.7000000000000001 in binary64, above 0.7) the source's risk level
    differs from this model's. *)
Definition aggregate (cid : string) (duplicate_score ai_detection_score : Q)
    (eng : eng_result) (beh : beh_result) (qual : qual_result)
    (meta : meta_result) : fraud_result :=
  let '(i1, c1) :=
    if qlt SIMILARITY_THRESHOLD duplicate_score then
      ([mkIndicator "duplicate_content" (round3 duplicate_score)
          (if qlt (95#100) duplicate_score then "high" else "medium")], 4#10)
    else ([], 0) in
  let '(i2, c2) :=
    if qlt AI_CONTENT_CONFIDENCE_THRESHOLD ai_detection_score then
      ([mkIndicator "undisclosed_ai_content" (round3 ai_detection_score)
          "medium"], 25#100)
    else ([], 0) in
  let '(i3, c3) :=
    if eng_detected eng then
      ([mkIndicator "engagement_manipulation" (eng_confidence eng)
          (if qlt (8#10) (eng_confidence eng) then "high" else "medium")], 5#10)
    else ([], 0) in
  let '(i4, c4) :=
    if beh_suspicious beh then
      ([mkIndicator "suspicious_behavior" (beh_score beh) (beh_severity beh)],
       3#10)
    else ([], 0) in
  let '(i5, c5) :=
    if qual_detected qual then
      ([mkIndicator "quality_inconsistency" (qual_score qual) "medium"], 2#10)
    else ([], 0) in
  let '(i6, c6) :=
    if meta_detected meta then
      ([mkIndicator "metadata_manipulation" (meta_score meta) "low"], 1#10)
    else ([], 0) in
  let confidence_score := 0 + c1 + c2 + c3 + c4 + c5 + c6 in
  let inds := i1 ++ i2 ++ i3 ++ i4 ++ i5 ++ i6 in
  let risk_level :=
    if qlt (7#10) confidence_score then "high"
    else if qlt (4#10) confidence_score then "medium" else "low" in
  let fraud_probability := py_min 1 confidence_score in
  mkResult (PStr cid) (negb (Nat.eqb (length inds) 0))
    (round3 fraud_probability) risk_level (round3 confidence_score) inds
    (generate_fraud_recommendations inds risk_level)
    (Details (mkDetails duplicate_score ai_detection_score eng beh qual meta)).

(** [detect_content_fraud] on a well-formed content dictionary: the
    checks run in order, threading the detector state. *)
Definition detect_content_fraud (md5_hexdigest : string -> string)
    (self : detector) (e : env) (c : content) : fraud_result * detector :=
  let '(duplicate_score, self1) := check_duplicate_content md5_hexdigest self c e in
  let ai_detection_score := detect_undisclosed_ai_content c e in
  let engagement_fraud := detect_engagement_fraud c e in
  let '(behavior_fraud, self2) :=
    analyze_creator_behavior self1 (creator_id c) c e in
  let quality_fraud := detect_quality_inconsistency self2 (creator_id c) c in
  let metadata_fraud := detect_metadata_manipulation (metadata_of c) in
  (aggregate (content_id c) duplicate_score ai_detection_score engagement_fraud
     behavior_fraud quality_fraud metadata_fraud, self2).

(** A sequence of [detect_content_fraud] calls on one detector. *)
Fixpoint detect_many (md5_hexdigest : string -> string) (self : detector)
    (calls : list (env * content)) : detector :=
  match calls with
  | [] => self
  | (e, c) :: cs =>
      detect_many md5_hexdigest (snd (detect_content_fraud md5_hexdigest self e c)) cs
  end.

End Fraud.

(** A Python computation that may raise; exceptions carry their class
    name. *)
Inductive exc (A : Type) :=
| Ok (a : A)
| Raise (e : string).
Arguments Ok {A}.
Arguments Raise {A}.

Definition exc_bind {A B} (m : exc A) (k : A -> exc B) : exc B :=
  match m with Ok a => k a | Raise e => Raise e end.
Notation "'let!' x := m 'in' k" := (exc_bind m (fun x => k))
  (at level 200, x name, m at level 100, k at level 200).

(** [try: body except Exception as e: handler(e)] *)
Definition py_try {A} (body : exc A) (handler : string -> exc A) : exc A :=
  match body with Ok a => Ok a | Raise e => handler e end.

Fixpoint assoc_lookup (k : string) (kv : list (string * pyval)) : option pyval :=
  match kv with
  | [] => None
  | (k', v) :: kv' => if String.eqb k k' then Some v else assoc_lookup k kv'
  end.

(** [o.get(k, default)]: only dictionaries have a [get] method. *)
Definition py_get (o : pyval) (k : string) (dflt : pyval) : exc pyval :=
  match o with
  | PDict kv => Ok (default dflt (assoc_lookup k kv))
  | _ => Raise "AttributeError"
  end.

(** Python truthiness. *)
Definition py_truthy (o : pyval) : bool :=
  match o with
  | PNone => false
  | PBool b => b
  | PNum q => negb (Qeq_bool q 0)
  | PStr s => negb (String.eqb s "")
  | PList l => negb (Nat.eqb (length l) 0)
  | PDict kv => negb (Nat.eqb (length kv) 0)
  end.

(** [detect_content_fraud] on an arbitrary Python value: the try block
    reads [content_id], [creator_id] and [metadata] with [.get] and then
    runs the checks; the handler logs [content_data.get('content_id',
    'unknown')] and returns [_get_fallback_fraud_result(content_data)]. *)
Module FraudTop.
Import Fraud.

(** [_get_fallback_fraud_result] *)
Definition get_fallback_fraud_result (content_data : pyval) : exc fraud_result :=
  let! cid := py_get content_data "content_id" (PStr "") in
  Ok (mkResult cid false (1#2) "medium" 0 []
        ["Manual review recommended due to analysis failure"] FallbackDetails).

Section Body.
(** The part of the try block after the three [.get] reads (the checks
    and the aggregation), for an arbitrary input value. *)
Variable analysis : pyval -> pyval -> pyval -> pyval -> exc fraud_result.

Definition try_block (content_data : pyval) : exc fraud_result :=
  let! content_id := py_get content_data "content_id" (PStr "") in
  let! creator_id := py_get content_data "creator_id" (PStr "") in
  let! metadata := py_get content_data "metadata" (PDict []) in
  analysis content_data content_id creator_id metadata.

Definition detect_content_fraud (content_data : pyval) : exc fraud_result :=
  py_try (try_block content_data)
    (fun _ => let! _ := py_get content_data "content_id" (PStr "unknown") in
              get_fallback_fraud_result content_data).
End Body.
End FraudTop.

(** ** services/quality_scorer.py : QualityScorer *)
Module Quality.

(** The feature dictionary ([features['features']]) as read by the
    scorer; [None] is an absent key. *)
Record features := mkFeatures {
  title_length : option Q;
  title_has_caps : option bool;
  title_exclamation_count : option Q;
  title_question_count : option Q;
  video_duration : option Q;
  brightness_score : option Q;
  contrast_score : option Q;
  color_variety : option Q;
  ai_engagement_potential : option Q;
  motion_score : option Q;
  face_detection_confidence : option Q;
  description_hashtag_count : option Q;
  ai_educational_value : option Q;
  description_length : option Q;
  description_word_count : option Q;
  avg_word_length : option Q;
  ai_content_depth : option Q;
  description_has_links : option bool;
  ai_category : option string;
  ai_originality : option Q;
  color_diversity : option Q;
  scene_changes : option Q;
  text_overlay_detected : option bool;
  title_word_count : option Q;
  emoji_count : option Q;
  composition_score : option Q;
  aspect_ratio : option Q;
  ai_safety_score : option Q;
  toxicity_score : option Q;
  capitalization_ratio : option Q;
  sentiment_score : option Q;
  ai_production_quality : option Q;
  sharpness_score : option Q;
  estimated_resolution : option string;
  has_audio : option bool;
  estimated_fps : option Q;
  f_creator_id : option string;
  f_content_type : option string
}.

(** [features.get(k, d)] *)
Definition getq (o : option Q) (d : Q) : Q := default d o.
Definition getb (o : option bool) : bool := default false o.

(** [score += d] under a condition. *)
Definition bump (cond : bool) (d score : Q) : Q := if cond then score + d else score.

(** [max(0.0, min(1.0, score))] *)
Definition clamp01 (score : Q) : Q := py_max 0 (py_min 1 score).

Definition between (lo x hi : Q) : bool := qle lo x && qle x hi.

(** [_calculate_engagement_score] *)
Definition calculate_engagement_score (f : features) : Q :=
  let s := 1#2 in
  let s := bump (between 10 (getq (title_length f) 0) 60) (1#10) s in
  let s := bump (getb (title_has_caps f)) (5#100) s in
  let s := bump (qlt 0 (getq (title_exclamation_count f) 0)) (5#100) s in
  let s := bump (qlt 0 (getq (title_question_count f) 0)) (5#100) s in
  let s := if truthy_num (video_duration f) then
             let d := getq (video_duration f) 0 in
             if between 15 d 60 then s + (15#100)
             else if qlt d 5 then s - (1#10)
             else if qlt 180 d then s - (1#10) else s
           else s in
  let s := bump (qlt (5#10) (getq (brightness_score f) 0)) (5#100) s in
  let s := bump (qlt (6#10) (getq (contrast_score f) 0)) (5#100) s in
  let s := bump (qlt (6#10) (getq (color_variety f) 0)) (5#100) s in
  let s := (s + getq (ai_engagement_potential f) (1#2)) / 2 in
  let s := bump (qlt (3#10) (getq (motion_score f) 0)) (1#10) s in
  let s := bump (qlt (7#10) (getq (face_detection_confidence f) 0)) (5#100) s in
  let s := bump (between 2 (getq (description_hashtag_count f) 0) 10) (5#100) s in
  clamp01 s.

Definition educational_categories : list string :=
  ["education"; "technology"; "science"; "tutorial"].

(** [_calculate_educational_score] *)
Definition calculate_educational_score (f : features) : Q :=
  let s := 3#10 in
  let s := (s + getq (ai_educational_value f) (3#10)) / 2 in
  let dl := getq (description_length f) 0 in
  let s := bump (qlt 100 dl) (15#100) s in
  let s := bump (qlt 300 dl) (1#10) s in
  let s := bump (qlt 50 (getq (description_word_count f) 0)) (1#10) s in
  let s := bump (qlt 5 (getq (avg_word_length f) 0)) (5#100) s in
  let s := (s + getq (ai_content_depth f) (3#10)) / 2 in
  let s := bump (getb (description_has_links f)) (1#10) s in
  let s := bump (qlt 60 (getq (video_duration f) 0)) (1#10) s in
  let s := bump (existsb (String.eqb (default "" (ai_category f)))
                         educational_categories) (2#10) s in
  clamp01 s.

(** [_calculate_creativity_score] *)
Definition calculate_creativity_score (f : features) : Q :=
  let s := 4#10 in
  let s := (s + getq (ai_originality f) (4#10)) / 2 in
  let s := bump (qlt (7#10) (getq (color_variety f) 0)) (1#10) s in
  let s := bump (qlt (6#10) (getq (color_diversity f) 0)) (5#100) s in
  let sc := getq (scene_changes f) 0 in
  let d := getq (video_duration f) 30 in
  let s := bump (qlt 0 d && qlt (1#10) (sc / d)) (1#10) s in
  let s := bump (getb (text_overlay_detected f)) (5#100) s in
  let s := bump (qlt 8 (getq (title_word_count f) 0)) (5#100) s in
  let s := bump (between 1 (getq (emoji_count f) 0) 5) (5#100) s in
  let s := bump (qlt (7#10) (getq (composition_score f) 0)) (1#10) s in
  let s := bump (negb (between (9#10) (getq (aspect_ratio f) 1) (11#10))) (5#100) s in
  clamp01 s.

(** [_calculate_safety_score] *)
Definition calculate_safety_score (f : features) : Q :=
  let s := 8#10 in
  let s := (s + getq (ai_safety_score f) (8#10)) / 2 in
  let s := s - getq (toxicity_score f) 0 * (5#10) in
  let s := bump (qlt (3#10) (getq (capitalization_ratio f) 0)) (-(1#10)) s in
  let s := bump (qlt 3 (getq (title_exclamation_count f) 0)) (-(5#100)) s in
  let se := getq (sentiment_score f) 0 in
  let s := if qlt se (-(3#10)) then s - (1#10)
           else if qlt (3#10) se then s + (5#100) else s in
  let b := getq (brightness_score f) (1#2) in
  let s := bump (qlt b (2#10) || qlt (9#10) b) (-(5#100)) s in
  clamp01 s.

(** [_calculate_production_score] *)
Definition calculate_production_score (f : features) : Q :=
  let s := 1#2 in
  let s := (s + getq (ai_production_quality f) (1#2)) / 2 in
  let sh := getq (sharpness_score f) 0 in
  let s := if qlt (7#10) sh then s + (15#100)
           else if qlt sh (3#10) then s - (1#10) else s in
  let s := bump (between (3#10) (getq (brightness_score f) (1#2)) (8#10)) (5#100) s in
  let s := bump (qlt (5#10) (getq (contrast_score f) 0)) (5#100) s in
  let s := match estimated_resolution f with
           | Some r => if String.eqb r "1080p" then s + (1#10)
                       else if String.eqb r "4K" then s + (15#100) else s
           | None => s
           end in
  let s := bump (getb (has_audio f)) (5#100) s in
  let s := bump (qlt (6#10) (getq (composition_score f) 0)) (1#10) s in
  let s := bump (qle 30 (getq (estimated_fps f) 0)) (5#100) s in
  let s := bump (qlt (8#10) (getq (face_detection_confidence f) 0)) (5#100) s in
  clamp01 s.

(** [self.weights] set in [QualityScorer.__init__]. *)
Record weights := mkWeights {
  w_engagement : Q; w_educational : Q; w_creativity : Q;
  w_safety : Q; w_production : Q
}.
Definition scorer_weights : weights := mkWeights (25#100) (20#100) (20#100) (15#100) (20#100).

(** [_get_quality_rating] with [self.thresholds]. *)
Definition get_quality_rating (score : Q) : string :=
  if qle (8#10) score then "excellent"
  else if qle (6#10) score then "good"
  else if qle (4#10) score then "fair"
  else "poor".

(** [_generate_recommendations] *)
Definition generate_recommendations (f : features)
    (eng edu cre saf pro : Q) : list string :=
  let r1 :=
    if qlt eng (6#10) then
      (if qlt (getq (title_length f) 0) 10
       then ["Consider making your title more descriptive and engaging"] else [])
      ++ (if qlt (getq (video_duration f) 0) 10
          then ["Try creating longer content to provide more value"] else [])
      ++ (if qlt (getq (motion_score f) 0) (3#10)
          then ["Add more dynamic elements or movement to increase engagement"] else [])
    else [] in
  let r2 :=
    if qlt edu (5#10) then
      (if qlt (getq (description_length f) 0) 50
       then ["Add more detailed descriptions to increase educational value"] else [])
      ++ ["Consider adding educational elements or explaining concepts"]
    else [] in
  let r3 :=
    if qlt cre (5#10) then
      ["Try experimenting with unique angles or creative approaches"]
      ++ (if qlt (getq (color_variety f) 0) (5#10)
          then ["Consider using more diverse colors or visual elements"] else [])
    else [] in
  let r4 :=
    if qlt pro (6#10) then
      (if qlt (getq (sharpness_score f) 0) (5#10)
       then ["Improve image sharpness and focus"] else [])
      ++ (if qlt (getq (brightness_score f) 0) (3#10)
          then ["Increase lighting for better visibility"] else [])
      ++ (if qlt (9#10) (getq (brightness_score f) 0)
          then ["Reduce overexposure for better visual quality"] else [])
    else [] in
  let r5 :=
    if qlt saf (7#10) then
      (if qlt (3#10) (getq (toxicity_score f) 0)
       then ["Review content for potentially harmful language"] else [])
      ++ ["Ensure content follows community guidelines"]
    else [] in
  let rs := r1 ++ r2 ++ r3 ++ r4 ++ r5 in
  match rs with
  | [] => ["Great work! Your content shows good quality across all dimensions"]
  | _ => rs
  end.

(** The dictionary returned by [calculate_scores] (timestamp and the copy
    of the weights left out). *)
Record quality_result := mkQResult {
  overall_score : Q;
  quality_rating : string;
  engagement : Q;
  educational : Q;
  creativity : Q;
  safety : Q;
  production : Q;
  recommendations : list string
}.

(** The unrounded weighted sum computed on lines 66-72. *)
Definition weighted_overall (w : weights) (eng edu cre saf pro : Q) : Q :=
  eng * w_engagement w + edu * w_educational w + cre * w_creativity w
  + saf * w_safety w + pro * w_production w.

(** [calculate_scores] (the history side effect is [store_quality_history]
    below).  Scores are exact rationals; where the float value of a score
    lies on the other side of a rating boundary than the exact one (a
    float sum of 0.39999999999999997 for an exact 0.4), the source's rating
    differs from this model's. *)
Definition calculate_scores (f : features) : quality_result :=
  let eng := calculate_engagement_score f in
  let edu := calculate_educational_score f in
  let cre := calculate_creativity_score f in
  let saf := calculate_safety_score f in
  let pro := calculate_production_score f in
  let overall := weighted_overall scorer_weights eng edu cre saf pro in
  mkQResult (round3 overall) (get_quality_rating overall)
    (round3 eng) (round3 edu) (round3 cre) (round3 saf) (round3 pro)
    (generate_recommendations f eng edu cre saf pro).

(** A feature dictionary with no keys: every [features.get] takes its
    default. *)
Definition no_features : features :=
  mkFeatures None None None None None None None None None None None None
    None None None None None None None None None None None None None None
    None None None None None None None None None None None None.

(** The same, with only [creator_id] set. *)
Definition features_of_creator (cid : string) : features :=
  mkFeatures None None None None None None None None None None None None
    None None None None None None None None None None None None None None
    None None None None None None None None None None (Some cid) None.

End Quality.

(** ** QualityScorer.quality_history and get_quality_trends *)
Module Trends.
Import Quality.

(** One history entry; [timestamp] is the [utcnow()] reading, in seconds. *)
Record hentry := mkHEntry {
  h_content_id : string;
  h_score : Q;
  h_timestamp : Q;
  h_content_type : string
}.

(** [self.quality_history]: a [defaultdict(list)], kept as an association
    list in key-insertion order, which is the order [.values()] yields. *)
Definition quality_history := list (string * list hentry).

Fixpoint hist_lookup (k : string) (h : quality_history) : option (list hentry) :=
  match h with
  | [] => None
  | (k', l) :: h' => if String.eqb k k' then Some l else hist_lookup k h'
  end.

(** [self.quality_history[k] = f(self.quality_history[k])], creating the
    key at the end when it is new. *)
Fixpoint hist_update (k : string) (f : list hentry -> list hentry)
    (h : quality_history) : quality_history :=
  match h with
  | [] => [(k, f [])]
  | (k', l) :: h' =>
      if String.eqb k k' then (k', f l) :: h' else (k', l) :: hist_update k f h'
  end.

(** [_store_quality_history] at time [now]: append, keep the last 100. *)
Definition store_quality_history (h : quality_history) (content_id : string)
    (score : Q) (f : features) (now : Q) : quality_history :=
  let creator := default "unknown" (f_creator_id f) in
  let e := mkHEntry content_id score now (default "unknown" (f_content_type f)) in
  hist_update creator (fun l => last_n 100 (l ++ [e])) h.

(** [calculate_scores] with its history side effect: the unrounded
    overall score is stored when [content_id] is truthy. *)
Definition calculate_scores_stateful (h : quality_history)
    (content_id : option string) (f : features) (now : Q)
    : quality_result * quality_history :=
  let eng := calculate_engagement_score f in
  let edu := calculate_educational_score f in
  let cre := calculate_creativity_score f in
  let saf := calculate_safety_score f in
  let pro := calculate_production_score f in
  let overall := weighted_overall scorer_weights eng edu cre saf pro in
  (calculate_scores f,
   if truthy_str content_id
   then store_quality_history h (default "" content_id) overall f now
   else h).

(** [time_range.rstrip('d')] *)
Fixpoint rstrip_d_rev (l : list Ascii.ascii) : list Ascii.ascii :=
  match l with
  | a :: l' => if Ascii.eqb a "d"%char then rstrip_d_rev l' else l
  | [] => []
  end.
Definition rstrip_d (s : string) : string :=
  string_of_list_ascii (rev (rstrip_d_rev (rev (list_ascii_of_string s)))).

Fixpoint parse_digits (s : string) (acc : Z) : option Z :=
  match s with
  | EmptyString => Some acc
  | String a s' =>
      let n := Ascii.nat_of_ascii a in
      if andb (Nat.leb 48 n) (Nat.leb n 57)
      then parse_digits s' (acc * 10 + Z.of_nat (n - 48))%Z
      else None
  end.

(** [int(s)] on an optional sign followed by decimal digits (the
    whitespace and underscore forms [int] also accepts are not modelled);
    anything else raises [ValueError]. *)
Definition py_int (s : string) : exc Z :=
  match s with
  | String "-"%char (String _ _ as r) =>
      match parse_digits r 0 with Some z => Ok (- z)%Z | None => Raise "ValueError" end
  | String "+"%char (String _ _ as r) =>
      match parse_digits r 0 with Some z => Ok z | None => Raise "ValueError" end
  | String _ _ =>
      match parse_digits s 0 with Some z => Ok z | None => Raise "ValueError" end
  | EmptyString => Raise "ValueError"
  end.

Record trends := mkTrends {
  average_score : Q;
  highest_score : Q;
  lowest_score : Q;
  score_trend : string;
  total_content : nat;
  dist_excellent : nat;
  dist_good : nat;
  dist_fair : nat;
  dist_poor : nat
}.

Inductive trends_response :=
| NoData (creator_id : option string) (time_range : string)
    (* {'trends': {}, 'message': 'No data available ...'} *)
| TrendReport (creator_id : option string) (time_range : string) (t : trends)
| TrendError (msg : string) (creator_id : option string) (time_range : string).

(** [max(xs)] and [min(xs)] on a non-empty list. *)
Definition list_max (x : Q) (xs : list Q) : Q := fold_left py_max xs x.
Definition list_min (x : Q) (xs : list Q) : Q := fold_left py_min xs x.

Definition count (p : Q -> bool) (xs : list Q) : nat := length (filter p xs).

(** [get_quality_trends(creator_id, time_range)] at time [now]. *)
Definition get_quality_trends (h : quality_history) (creator_id : option string)
    (time_range : string) (now : Q) : trends_response :=
  match py_int (rstrip_d time_range) with
  | Raise e => TrendError e creator_id time_range
  | Ok days =>
      let cutoff := now - inject_Z days * 86400 in
      let history :=
        if truthy_str creator_id
        then default [] (hist_lookup (default "" creator_id) h)
        else concat (map snd h) in
      let recent := filter (fun e => qlt cutoff (h_timestamp e)) history in
      match map h_score recent with
      | [] => NoData creator_id time_range
      | (s0 :: ss) as scores =>
          TrendReport creator_id time_range
            (mkTrends (round3 (qmean scores)) (round3 (list_max s0 ss))
               (round3 (list_min s0 ss))
               (if Nat.ltb 1 (length scores) && qlt s0 (List.last scores s0)
                then "improving" else "stable")
               (length recent)
               (count (fun s => qle (8#10) s) scores)
               (count (fun s => qle (6#10) s && qlt s (8#10)) scores)
               (count (fun s => qle (4#10) s && qlt s (6#10)) scores)
               (count (fun s => qlt s (4#10)) scores))
      end
  end.

(** The trend as the specification words it: compare the score of the
    chronologically last entry with that of the chronologically first. *)
Definition earliest (e : hentry) (es : list hentry) : hentry :=
  fold_left (fun a b => if qlt (h_timestamp b) (h_timestamp a) then b else a) es e.
Definition latest (e : hentry) (es : list hentry) : hentry :=
  fold_left (fun a b => if qle (h_timestamp a) (h_timestamp b) then b else a) es e.

Definition spec_score_trend (recent : list hentry) : string :=
  match recent with
  | e :: es =>
      if Nat.leb 2 (length recent)
         && qlt (h_score (earliest e es)) (h_score (latest e es))
      then "improving" else "stable"
  | [] => "stable"
  end.

End Trends.

(** ** config.py : Config.validate_config *)
Module Config.

Import PrimFloat.

(** [PORT] is an [int]; [QUALITY_WEIGHTS] maps names to Python floats,
    binary64 values, modelled as Rocq's primitive floats so that the sum
    and the tolerance test round as in the source. *)
Record config := mkConfig {
  OPENAI_API_KEY : string;
  PORT : Z;
  QUALITY_WEIGHTS : list (string * float)
}.

(** The class attribute [QUALITY_WEIGHTS]. *)
Definition default_quality_weights : list (string * float) :=
  [("engagement", 0.25%float); ("educational", 0.20%float);
   ("creativity", 0.20%float); ("safety", 0.20%float);
   ("production", 0.15%float)].

(** [sum(cls.QUALITY_WEIGHTS.values())]: [sum] starts from the integer 0,
    and [0 + x] is [x] for a float [x]. *)
Definition weight_sum (ws : list (string * float)) : float :=
  fold_left (fun acc kv => add acc (snd kv)) ws 0%float.

(** [abs(weight_sum - 1.0) > 0.01] *)
Definition weights_off (ws : list (string * float)) : bool :=
  ltb 0.01%float (abs (sub (weight_sum ws) 1.0%float)).

(** The error list built by [validate_config] (the values interpolated
    into the port and weight messages left out). *)
Definition config_errors (c : config) : list string :=
  (if String.eqb (OPENAI_API_KEY c) "" then ["OPENAI_API_KEY is required"] else [])
  ++ (if (1 <=? PORT c)%Z && (PORT c <=? 65535)%Z then [] else ["Invalid port"])
  ++ (if weights_off (QUALITY_WEIGHTS c)
      then ["Quality weights must sum to 1.0"] else []).

(** [validate_config]: the boolean result and the printed lines. *)
Definition validate_config (c : config) : bool * list string :=
  match config_errors c with
  | [] => (true, [])
  | errs => (false, "Configuration errors:" :: errs)
  end.

Definition config_warning : string :=
  "Warning: Configuration validation failed. Some features may not work correctly.".

(** Importing [config.py]: the module-level check prints a warning when
    validation fails and the import goes on. *)
Definition import_config (c : config) : exc (list string) :=
  let '(ok, printed) := validate_config c in
  Ok (if ok then printed else printed ++ [config_warning]).

End Config.

(** ** app.py : the [/api/analyze/batch] endpoint *)
Module App.

Inductive response := Resp (status : Z) (body : pyval).

(** The methods defined by [class FraudDetector] in
    services/fraud_detector.py. *)
Definition fraud_detector_methods : list string :=
  ["__init__"; "detect_content_fraud"; "_detect_engagement_fraud";
   "_analyze_creator_behavior"; "_detect_quality_inconsistency";
   "_detect_metadata_manipulation"; "_generate_fraud_recommendations";
   "_get_fallback_fraud_result"; "detect_user_fraud";
   "_check_duplicate_content"; "_detect_undisclosed_ai_content";
   "_check_copyright_infringement"; "_check_metadata_manipulation";
   "_check_upload_rate_abuse"; "_detect_bot_behavior";
   "_detect_fake_engagement"; "_check_account_authenticity";
   "_generate_content_hash"; "_calculate_risk_level";
   "_get_recommended_action"].

(** [o[k]] on a dictionary. *)
Definition py_getitem (o : pyval) (k : string) : exc pyval :=
  match o with
  | PDict kv => match assoc_lookup k kv with
                | Some v => Ok v | None => Raise "KeyError" end
  | _ => Raise "TypeError"
  end.

(** [len(o)] *)
Definition py_len (o : pyval) : exc nat :=
  match o with
  | PList l => Ok (length l)
  | PStr s => Ok (String.length s)
  | PDict kv => Ok (length kv)
  | _ => Raise "TypeError"
  end.

(** [for x in o] *)
Definition py_iter (o : pyval) : exc (list pyval) :=
  match o with
  | PList l => Ok l
  | PStr s => Ok (map (fun a => PStr (String a EmptyString)) (list_ascii_of_string s))
  | PDict kv => Ok (map (fun kv => PStr (fst kv)) kv)
  | _ => Raise "TypeError"
  end.

Section Endpoint.
(** [content_analyzer.extract_features] and [quality_scorer.calculate_scores]
    on arbitrary input, and the methods the detector does define. *)
Variable extract_features : pyval -> exc pyval.
Variable calculate_scores : pyval -> exc pyval.
Variable fraud_method : string -> pyval -> pyval -> exc pyval.
(** [f"analysis:{content_id}"] *)
Variable analysis_key : pyval -> string.

(** [fraud_detector.<name>(a, b)]: attribute lookup, then the call. *)
Definition call_fraud_detector (name : string) (a b : pyval) : exc pyval :=
  if existsb (String.eqb name) fraud_detector_methods
  then fraud_method name a b
  else Raise "AttributeError".

(** The try block of one loop iteration, at time [now]: the cache state
    it leaves (the [get] may already have touched it) and its outcome. *)
Definition analyze_item (cm : Cache.manager pyval) (content : pyval) (now : Q)
    : Cache.manager pyval * exc pyval :=
  match py_get content "content_id" PNone with
  | Raise e => (cm, Raise e)
  | Ok content_id =>
      let '(cached, cm1) := Cache.get cm (analysis_key content_id) now in
      let analyse :=
        match (let! features := extract_features content in
               let! quality_scores := calculate_scores features in
               let! fraud_score := call_fraud_detector "assess_risk" content features in
               let! qi := py_getitem quality_scores "overall_score" in
               Ok (PDict [("content_id", content_id); ("quality_index", qi);
                          ("scores", quality_scores); ("fraud_risk", fraud_score)]))
        with
        | Ok assessment =>
            (snd (Cache.set cm1 (analysis_key content_id) assessment None now),
             Ok assessment)
        | Raise e => (cm1, Raise e)
        end in
      match cached with
      | Some v => if py_truthy v then (cm1, Ok v) else analyse
      | None => analyse
      end
  end.

(** The loop: a failing item appends [{'content_id': ..., 'error': ...}];
    the [.get] in the handler itself may raise, which leaves the loop. *)
Fixpoint process_items (cm : Cache.manager pyval) (items : list pyval) (now : Q)
    : exc (list pyval * Cache.manager pyval) :=
  match items with
  | [] => Ok ([], cm)
  | content :: rest =>
      let! r :=
        match analyze_item cm content now with
        | (cm', Ok res) => Ok (res, cm')
        | (cm', Raise e) =>
            let! _ := py_get content "content_id" (PStr "unknown") in
            let! cid := py_get content "content_id" (PStr "unknown") in
            Ok (PDict [("content_id", cid); ("error", PStr e)], cm')
        end in
      let! tl := process_items (snd r) rest now in
      Ok (fst r :: fst tl, snd tl)
  end.

Definition batch_body (cm : Cache.manager pyval) (data : pyval) (now : Q)
    : exc (response * Cache.manager pyval) :=
  let! contents := py_get data "contents" (PList []) in
  if negb (py_truthy contents) then
    Ok (Resp 400 (PDict [("error", PStr "No contents provided")]), cm)
  else
    let! n := py_len contents in
    if Nat.ltb 50 n then
      Ok (Resp 400 (PDict [("error", PStr "Batch size too large (max 50)")]), cm)
    else
      let! items := py_iter contents in
      let! r := process_items cm items now in
      Ok (Resp 200 (PDict [("batch_results", PList (fst r));
                           ("total_processed", PNum (inject_Z (Z.of_nat (length (fst r)))))]),
          snd r).

(** [analyze_batch()] on the request JSON [data]. *)
Definition analyze_batch (cm : Cache.manager pyval) (data : pyval) (now : Q)
    : response * Cache.manager pyval :=
  match batch_body cm data now with
  | Ok r => r
  | Raise e =>
      (Resp 500 (PDict [("error", PStr "Internal server error"); ("message", PStr e)]), cm)
  end.
End Endpoint.

(** Whether an entry of [batch_results] is a per-item error. *)
Definition is_error_entry (v : pyval) : bool :=
  match v with
  | PDict kv => match assoc_lookup "error" kv with Some _ => true | None => false end
  | _ => false
  end.

(** A content dictionary with a [content_id] and a title. *)
Definition valid_item (n : Z) : list (string * pyval) :=
  [("content_id", PStr "item"); ("title", PStr "A title"); ("views", PNum (inject_Z n))].

(** A content dictionary without a title. *)
Definition malformed_item : list (string * pyval) := [("content_id", PStr "bad")].

(** Ten valid items followed by a malformed one. *)
Definition example_items : list (list (string * pyval)) :=
  map valid_item [1; 2; 3; 4; 5; 6; 7; 8; 9; 10]%Z ++ [malformed_item].

(** An analyser that fails on a missing title and scorers that succeed. *)
Definition example_extract_features (c : pyval) : exc pyval :=
  let! t := py_get c "title" PNone in
  if py_truthy t then Ok c else Raise "KeyError".
Definition example_calculate_scores (f : pyval) : exc pyval :=
  Ok (PDict [("overall_score", PNum (1#2))]).
Definition example_fraud_method (name : string) (a b : pyval) : exc pyval :=
  Ok (PDict [("risk_level", PStr "low")]).

End App.

(** ** utils/cache.py : the other [CacheManager] methods *)
Module CacheOps.
Import Cache.

(** [delete(key)] *)
Definition delete {A} (self : manager A) (key : string) : bool * manager A :=
  match cache self !! key with
  | Some _ => (true, mkManager (stdpp.base.delete key (cache self)) (default_ttl self))
  | None => (false, self)
  end.

(** [clear()] *)
Definition clear {A} (self : manager A) : bool * manager A :=
  (true, mkManager ∅ (default_ttl self)).

(** [current_time > entry['expires_at']] *)
Definition expired {A} (now : Q) (e : entry A) : bool := qlt (expires_at e) now.

(** [cleanup_expired()] at time [now]: collect the expired keys, delete
    them one by one, return how many there were. *)
Definition cleanup_expired {A} (self : manager A) (now : Q) : nat * manager A :=
  let expired_keys :=
    map fst (List.filter (fun kv => expired now (snd kv)) (map_to_list (cache self))) in
  (length expired_keys,
   mkManager (fold_left (fun m k => stdpp.base.delete k m) expired_keys (cache self))
             (default_ttl self)).

(** The dictionary returned by [get_status()] ('status': 'operational';
    the timestamp left out). *)
Record status := mkStatus {
  active_entries : nat;
  expired_entries : nat;
  total_entries : nat;
  status_default_ttl : Q
}.

(** [get_status()] at time [now]: one pass over the items. *)
Definition get_status {A} (self : manager A) (now : Q) : status :=
  let '(active, expd) :=
    fold_left (fun acc kv => if expired now (snd kv)
                             then (fst acc, S (snd acc)) else (S (fst acc), snd acc))
              (map_to_list (cache self)) (0%nat, 0%nat) in
  mkStatus active expd (size (cache self)) (default_ttl self).

(** [f"analysis:{content_id}"] for a string [content_id]. *)
Definition analysis_key (content_id : string) : string := ("analysis:" ++ content_id)%string.

(** [get_analysis(content_id)] and [set_analysis(content_id, analysis, ttl)] *)
Definition get_analysis {A} (self : manager A) (content_id : string) (now : Q)
    : option A * manager A :=
  get self (analysis_key content_id) now.
Definition set_analysis {A} (self : manager A) (content_id : string) (v : A)
    (ttl_arg : option Q) (now : Q) : bool * manager A :=
  set self (analysis_key content_id) v ttl_arg now.

End CacheOps.

(** ** services/fraud_detector.py : [detect_user_fraud] and its checks *)
Module UserFraud.

(** The [user_data] dictionary with the defaults of its [.get] calls
    applied; a profile field is kept as its truthiness. *)
Record user_data := mkUserData {
  upload_times : list Q;
  content_similarities : list Q;
  total_views : Q;
  total_likes : Q;
  total_comments : Q;
  avatar : bool;
  bio : bool;
  verified_email : bool;
  social_links : bool;
  account_age_days : Q
}.

(** An entry of [user_behavior_patterns]: the dictionary written by
    [_analyze_creator_behavior] (keys [upload_frequency], [quality_scores],
    ..., no [uploads]) or the one written by [_check_upload_rate_abuse]. *)
Inductive pattern :=
| CreatorPattern (h : Fraud.history)
| UploadPattern (uploads : list Q) (last_quality_scores : list Q).

Definition patterns := gmap string pattern.

Definition UPLOAD_RATE_LIMIT : nat := 10.

(** [_check_upload_rate_abuse(user_id, user_data)] at time [now].  A stored
    entry is mutated in place ([user_pattern] aliases it), so its upload
    list is updated even when the limit is exceeded; a fresh default entry
    is stored only on the non-exceeded path.  On a [CreatorPattern] the read
    of ['uploads'] raises [KeyError], caught: 0.0 and nothing changes. *)
Definition check_upload_rate_abuse (st : patterns) (user_id : string) (now : Q)
    : Q * patterns :=
  match st !! user_id with
  | Some (CreatorPattern _) => (0, st)
  | Some (UploadPattern ups lqs) =>
      let ups' := List.filter (fun u => qlt (now - u) 3600) ups ++ [now] in
      let st' := <[user_id := UploadPattern ups' lqs]> st in
      if Nat.ltb UPLOAD_RATE_LIMIT (length ups') then (8#10, st') else (0, st')
  | None =>
      let ups' := List.filter (fun u => qlt (now - u) 3600) [] ++ [now] in
      if Nat.ltb UPLOAD_RATE_LIMIT (length ups') then (8#10, st)
      else (0, <[user_id := UploadPattern ups' []]> st)
  end.

(** [[ts[i] - ts[i-1] for i in range(1, len(ts))]] *)
Definition intervals (ts : list Q) : list Q :=
  map (fun p => snd p - fst p) (combine ts (tl ts)).

(** [_detect_bot_behavior] *)
Definition detect_bot_behavior (ud : user_data) : Q :=
  let ts := upload_times ud in
  let timing :=
    if Nat.ltb 5 (length ts) then
      let iv := intervals ts in
      let interval_variance := match iv with [] => 0 | _ => qvar iv end in
      if qlt interval_variance 100 then Some (7#10) else None
    else None in
  match timing with
  | Some s => s
  | None =>
      let cs := content_similarities ud in
      if negb (Nat.eqb (length cs) 0) && qlt (9#10) (qmean cs) then 8#10 else 0
  end.

(** [_detect_fake_engagement] *)
Definition detect_fake_engagement (ud : user_data) : Q :=
  let views := total_views ud in
  if qlt 0 views then
    if qlt (5#10) (total_likes ud / views) || qlt (1#10) (total_comments ud / views)
    then 7#10 else 0
  else 0.

(** [_check_account_authenticity] *)
Definition check_account_authenticity (ud : user_data) : Q :=
  let c := 0 in
  let c := if avatar ud then c + (2#10) else c in
  let c := if bio ud then c + (2#10) else c in
  let c := if verified_email ud then c + (3#10) else c in
  let c := if social_links ud then c + (3#10) else c in
  let age_score := py_min (account_age_days ud / 30) 1 in
  (c + age_score) / 2.

(** The dictionary returned by [detect_user_fraud] (timestamp and
    descriptions left out; an indicator is its type and score). *)
Record user_result := mkUserResult {
  is_fraudulent : bool;
  uf_confidence_score : Q;
  uf_risk_level : string;
  uf_fraud_indicators : list (string * Q);
  uf_recommended_action : string
}.

(** [detect_user_fraud(user_id, user_data)] at time [now]. *)
Definition detect_user_fraud (st : patterns) (user_id : string) (ud : user_data)
    (now : Q) : user_result * patterns :=
  let '(upload_abuse_score, st') := check_upload_rate_abuse st user_id now in
  let '(i1, c1) := if qlt (7#10) upload_abuse_score
                   then ([("upload_rate_abuse", upload_abuse_score)], 3#10) else ([], 0) in
  let bot_score := detect_bot_behavior ud in
  let '(i2, c2) := if qlt (8#10) bot_score
                   then ([("bot_behavior", bot_score)], 4#10) else ([], 0) in
  let fake_engagement_score := detect_fake_engagement ud in
  let '(i3, c3) := if qlt (6#10) fake_engagement_score
                   then ([("fake_engagement", fake_engagement_score)], 3#10) else ([], 0) in
  let account_authenticity_score := check_account_authenticity ud in
  let '(i4, c4) := if qlt account_authenticity_score (4#10)
                   then ([("fake_account", 1 - account_authenticity_score)], 4#10)
                   else ([], 0) in
  let confidence_score := 0 + c1 + c2 + c3 + c4 in
  let risk_level := Fraud.calculate_risk_level confidence_score in
  (mkUserResult (qlt (5#10) confidence_score) (py_min confidence_score 1) risk_level
     (i1 ++ i2 ++ i3 ++ i4) (Fraud.get_recommended_action risk_level), st').

(** Successive [_check_upload_rate_abuse] calls for one user at the clock
    readings [ts]: the scores returned, and the final patterns. *)
Fixpoint check_upload_rate_many (st : patterns) (user_id : string) (ts : list Q)
    : list Q * patterns :=
  match ts with
  | [] => ([], st)
  | t :: ts' =>
      let '(s, st1) := check_upload_rate_abuse st user_id t in
      let '(ss, st2) := check_upload_rate_many st1 user_id ts' in
      (s :: ss, st2)
  end.

End UserFraud.

(** ** quality_scorer.py : [QualityScorer.get_status] *)
Module ScorerStatus.
Import Quality Trends.

(** The two computed fields of [get_status()] (the service name, status,
    weights and thresholds are constants). *)
Record scorer_status := mkScorerStatus {
  history_size : nat;
  creators_tracked : nat
}.

Definition get_status (h : quality_history) : scorer_status :=
  mkScorerStatus (list_sum (map (fun kv => length (snd kv)) h)) (length h).

(** A run of [_store_quality_history] calls (content id, score, features,
    clock reading), from the history [h]. *)
Definition store_all (h : quality_history)
    (calls : list (string * Q * features * Q)) : quality_history :=
  fold_left (fun h c => let '(cid, s, f, t) := c in store_quality_history h cid s f t)
    calls h.

End ScorerStatus.

(** ** app.py : the other endpoints *)
Module AppMore.
Import App.

(** [k in o] for a string [k]. *)
Definition py_in (k : string) (o : pyval) : exc bool :=
  match o with
  | PDict kv => Ok (match assoc_lookup k kv with Some _ => true | None => false end)
  | PStr s => Ok (contains k s)
  | PList l => Ok (existsb (fun v => match v with PStr s => String.eqb s k | _ => false end) l)
  | _ => Raise "TypeError"
  end.

(** [all(f in o for f in fs)], stopping at the first [False]. *)
Fixpoint py_all_in (fs : list string) (o : pyval) : exc bool :=
  match fs with
  | [] => Ok true
  | f :: fs' => let! b := py_in f o in if b then py_all_in fs' o else Ok false
  end.

(** [list(o.keys())] *)
Definition py_keys (o : pyval) : exc pyval :=
  match o with
  | PDict kv => Ok (PList (map (fun kv => PStr (fst kv)) kv))
  | _ => Raise "AttributeError"
  end.

Definition required_fields : list string := ["content_id"; "content_type"; "content_url"].

Definition internal_error (e : string) : response :=
  Resp 500 (PDict [("error", PStr "Internal server error"); ("message", PStr e)]).

Section Endpoints.
Variable extract_features : pyval -> exc pyval.
Variable calculate_scores : pyval -> exc pyval.
Variable fraud_method : string -> pyval -> pyval -> exc pyval.
Variable analysis_key : pyval -> string.

(** The assessment dictionary of [analyze_content] (timestamp left out),
    its reads in the order the dictionary literal evaluates them. *)
Definition build_assessment (content_id features quality_scores fraud_score : pyval)
    : exc pyval :=
  let! qi := py_getitem quality_scores "overall_score" in
  let! e1 := py_getitem quality_scores "engagement" in
  let! e2 := py_getitem quality_scores "educational" in
  let! e3 := py_getitem quality_scores "creativity" in
  let! e4 := py_getitem quality_scores "safety" in
  let! e5 := py_getitem quality_scores "production" in
  let! rl := py_getitem fraud_score "risk_level" in
  let! cf := py_getitem fraud_score "confidence" in
  let! ind := py_get fraud_score "indicators" (PNum 0) in
  let! act := py_get fraud_score "action" (PStr "allow") in
  let! recs := py_get quality_scores "recommendations" (PList []) in
  let! pt := py_get features "processing_time" (PNum 0) in
  Ok (PDict [("content_id", content_id); ("quality_index", qi);
             ("scores", PDict [("engagement_potential", e1); ("educational_value", e2);
                               ("creativity_score", e3); ("safety_rating", e4);
                               ("production_quality", e5)]);
             ("fraud_risk", PDict [("risk_level", rl); ("confidence", cf);
                                   ("indicators", ind); ("action", act)]);
             ("recommendations", recs); ("processing_time_ms", pt)]).

(** [analyze_content()] on the request JSON [data] at time [now]: the
    response and the cache state it leaves. *)
Definition analyze_content (cm : Cache.manager pyval) (data : pyval) (now : Q)
    : response * Cache.manager pyval :=
  match py_all_in required_fields data with
  | Raise e => (internal_error e, cm)
  | Ok false =>
      match py_keys data with
      | Ok keys =>
          (Resp 400 (PDict [("error", PStr "Missing required fields");
                            ("required", PList (map PStr required_fields));
                            ("received", keys)]), cm)
      | Raise e => (internal_error e, cm)
      end
  | Ok true =>
      match py_getitem data "content_id" with
      | Raise e => (internal_error e, cm)
      | Ok content_id =>
          let '(cached, cm1) := Cache.get cm (analysis_key content_id) now in
          let analyse :=
            match (let! features := extract_features data in
                   let! quality_scores := calculate_scores features in
                   let! fraud_score :=
                     call_fraud_detector fraud_method "assess_risk" data features in
                   build_assessment content_id features quality_scores fraud_score)
            with
            | Ok assessment =>
                (Resp 200 assessment,
                 snd (Cache.set cm1 (analysis_key content_id) assessment None now))
            | Raise e => (internal_error e, cm1)
            end in
          match cached with
          | Some v => if py_truthy v then (Resp 200 v, cm1) else analyse
          | None => analyse
          end
      end
  end.

(** [report_fraud()]: [fraud_detector.create_report(data)]. *)
Variable create_report : pyval -> exc pyval.

(** [model_status()]: the status dictionary is built in the order of its
    keys; [fraud_detector.get_status] is looked up on the detector. *)
Variable content_analyzer_status : exc pyval.
Variable fraud_get_status : exc pyval.

End Endpoints.

(** A run of [analyze_content] requests (request JSON, clock reading). *)
Fixpoint analyze_contents ef cs fm ak (cm : Cache.manager pyval)
    (reqs : list (pyval * Q)) : list response * Cache.manager pyval :=
  match reqs with
  | [] => ([], cm)
  | (data, now) :: rest =>
      let '(r, cm') := analyze_content ef cs fm ak cm data now in
      let '(rs, cm'') := analyze_contents ef cs fm ak cm' rest in
      (r :: rs, cm'')
  end.

End AppMore.

(** * Properties *)

Lemma qle_spec a b : qle a b = true <-> a <= b.
Proof. unfold qle. apply Qle_bool_iff. Qed.

Lemma qlt_spec a b : qlt a b = true <-> a < b.
Proof.
  unfold qlt. destruct (Qle_bool b a) eqn:E; simpl; split; intros H.
  - discriminate.
  - apply Qle_bool_iff in E. exfalso. apply (Qlt_not_le a b); assumption.
  - apply Qnot_le_lt. intros Hle. apply Qle_bool_iff in Hle. congruence.
  - reflexivity.
Qed.

Lemma qle_false a b : qle a b = false <-> b < a.
Proof.
  split; intros H.
  - apply Qnot_le_lt. intros Hle. apply qle_spec in Hle. congruence.
  - destruct (qle a b) eqn:E; [|reflexivity].
    apply qle_spec in E. exfalso. apply (Qlt_not_le b a); assumption.
Qed.

Lemma qlt_false a b : qlt a b = false <-> b <= a.
Proof.
  split; intros H.
  - apply Qnot_lt_le. intros Hlt. apply qlt_spec in Hlt. congruence.
  - destruct (qlt a b) eqn:E; [|reflexivity].
    apply qlt_spec in E. exfalso. apply (Qlt_not_le a b); assumption.
Qed.

(** ** Cache *)

(** C2: right after [set(k, v, t)] with [t > 0], [get(k)] returns [v]; a
    [get] on a present entry whose [expires_at] has passed reports a miss
    and deletes the entry. *)
Theorem cache_set_get_and_lazy_expiry {A : Type} :
  (forall (m : Cache.manager A) (k : string) (v : A) (t now : Q),
      0 < t ->
      fst (Cache.get (snd (Cache.set m k v (Some t) now)) k now) = Some v)
  /\
  (forall (m : Cache.manager A) (k : string) (e : Cache.entry A) (now : Q),
      Cache.cache m !! k = Some e ->
      Cache.expires_at e < now ->
      fst (Cache.get m k now) = None
      /\ Cache.cache (snd (Cache.get m k now)) !! k = None).
Proof.
  split.
  - intros m k v t now Ht. unfold Cache.get, Cache.set; simpl.
    rewrite lookup_insert_eq; simpl.
    replace (qlt (now + t) now) with false; [reflexivity|].
    symmetry. apply qlt_false. lra.
  - intros m k e now Hk Hexp. unfold Cache.get. rewrite Hk.
    apply qlt_spec in Hexp. rewrite Hexp; simpl.
    split; [reflexivity|]. apply lookup_delete_eq.
Qed.

Lemma cache_set_get_and_lazy_expiry_witness :
  fst (Cache.get (snd (Cache.set (Cache.init 3600) "k" 7%nat (Some 60) 1000)) "k" 1000)
    = Some 7%nat
  /\ fst (Cache.get (snd (Cache.set (Cache.init 3600) "k" 7%nat (Some 60) 1000)) "k" 1061)
    = None.
Proof.
  split.
  - apply (proj1 (@cache_set_get_and_lazy_expiry nat)). reflexivity.
  - apply (proj2 (@cache_set_get_and_lazy_expiry nat)
             (snd (Cache.set (Cache.init 3600) "k" 7%nat (Some 60) 1000)) "k"
             (Cache.mkEntry 7%nat 1000 1000 (1000 + 60) 60) 1061);
      [reflexivity | reflexivity].
Defined.

(** ** Quality rating *)

(** C4: the rating is "excellent" iff [s >= 0.8], "good" iff
    [0.6 <= s < 0.8], "fair" iff [0.4 <= s < 0.6], "poor" iff [s < 0.4]; at
    the boundaries 0.8, 0.79999, 0.4 and 0.39999 it is excellent, good, fair
    and poor. *)
Theorem quality_rating_thresholds :
  (forall s : Q,
      (Quality.get_quality_rating s = "excellent" <-> 8#10 <= s)
      /\ (Quality.get_quality_rating s = "good" <-> 6#10 <= s /\ s < 8#10)
      /\ (Quality.get_quality_rating s = "fair" <-> 4#10 <= s /\ s < 6#10)
      /\ (Quality.get_quality_rating s = "poor" <-> s < 4#10))
  /\ Quality.get_quality_rating (8#10) = "excellent"
  /\ Quality.get_quality_rating (79999#100000) = "good"
  /\ Quality.get_quality_rating (4#10) = "fair"
  /\ Quality.get_quality_rating (39999#100000) = "poor".
Proof.
  split; [|repeat split; reflexivity].
  intros s. unfold Quality.get_quality_rating.
  destruct (qle (8#10) s) eqn:E8;
    [apply qle_spec in E8 | apply qle_false in E8];
  [|destruct (qle (6#10) s) eqn:E6;
    [apply qle_spec in E6 | apply qle_false in E6];
  [|destruct (qle (4#10) s) eqn:E4;
    [apply qle_spec in E4 | apply qle_false in E4]]];
  repeat split; intros;
  repeat match goal with Hc : _ /\ _ |- _ => destruct Hc end;
  try discriminate; try reflexivity; try lra.
Qed.

(** ** Fraud detection *)
Section FraudProofs.
Import Fraud.

(** C1: when exactly the duplicate-content check and the metadata check
    fire, [detect_content_fraud] reports confidence 0.5, risk "medium", and
    [_get_recommended_action] maps that risk to "flag_for_review". *)
Theorem detect_duplicate_and_metadata_only :
  forall (md5 : string -> string) (st st1 st2 : detector) (e : env) (c : content)
         (dup : Q) (beh : beh_result),
    check_duplicate_content md5 st c e = (dup, st1) ->
    analyze_creator_behavior st1 (creator_id c) c e = (beh, st2) ->
    85#100 < dup ->
    detect_undisclosed_ai_content c e <= 8#10 ->
    eng_detected (detect_engagement_fraud c e) = false ->
    beh_suspicious beh = false ->
    qual_detected (detect_quality_inconsistency st2 (creator_id c) c) = false ->
    meta_detected (detect_metadata_manipulation (metadata_of c)) = true ->
    let r := fst (detect_content_fraud md5 st e c) in
    fr_confidence_score r = 1#2
    /\ fr_risk_level r = "medium"
    /\ get_recommended_action (fr_risk_level r) = "flag_for_review"
    /\ map ind_type (fr_fraud_indicators r)
       = ["duplicate_content"; "metadata_manipulation"].
Proof.
  intros md5 st st1 st2 e c dup beh Hd Hb Hdup Hai Heng Hbeh Hq Hm.
  unfold detect_content_fraud. rewrite Hd, Hb. cbv zeta. unfold aggregate.
  apply qlt_spec in Hdup. unfold SIMILARITY_THRESHOLD. rewrite Hdup.
  apply qlt_false in Hai. unfold AI_CONTENT_CONFIDENCE_THRESHOLD. rewrite Hai.
  rewrite Heng, Hbeh, Hq, Hm. simpl.
  repeat split; reflexivity.
Qed.

Lemma meta_detected_bool (m : metadata) :
  meta_detected (detect_metadata_manipulation m)
  = (match creation_time m, upload_time m with
     | Some ct, Some ut =>
         truthy_num (Some ct) && truthy_num (Some ut) && qlt (86400 * 30) (Qabs (ut - ct))
     | _, _ => false
     end
     || (qlt 20 (default 0 (edit_count m))
         && Nat.ltb 1 (length (filter negb [truthy_str (md_title m);
                                            truthy_str (md_description m);
                                            truthy_num (md_duration m)])))).
Proof.
  unfold detect_metadata_manipulation.
  destruct (qlt 20 (default 0 (edit_count m)));
  destruct (Nat.ltb 1 _);
  destruct (creation_time m), (upload_time m); try reflexivity;
  destruct (truthy_num _ && truthy_num _ && qlt _ _); reflexivity.
Qed.

Lemma truthy_num_Some (x : Q) : truthy_num (Some x) = true <-> ~ x == 0.
Proof.
  unfold truthy_num. destruct (Qeq_bool x 0) eqn:E; simpl; split; intros H.
  - discriminate.
  - apply Qeq_bool_iff in E. contradiction.
  - intros Hx. apply Qeq_bool_iff in Hx. congruence.
  - reflexivity.
Qed.

Lemma detect_duplicate_and_metadata_only_witness :
  let c := mkContent "c1" "creator1" "Hello" "World" [] 0 0 0 0 (1#2)
             (mkMetadata (Some 1) (Some (1 + 86400 * 31)) None
                         (Some "Hello") (Some "World") (Some 30)) in
  let st := mkDetector {["HelloWorld"]} ∅ in
  let e := mkEnv 1000 (1#10) (1#5) 0 in
  let r := fst (detect_content_fraud (fun s => s) st e c) in
  fr_confidence_score r = 1#2
  /\ fr_risk_level r = "medium"
  /\ get_recommended_action (fr_risk_level r) = "flag_for_review"
  /\ map ind_type (fr_fraud_indicators r)
     = ["duplicate_content"; "metadata_manipulation"].
Proof.
  cbv zeta.
  eapply detect_duplicate_and_metadata_only;
    [reflexivity | reflexivity | reflexivity | apply qle_spec; reflexivity
    | reflexivity | reflexivity | reflexivity | reflexivity].
Defined.

(** C5 (as amended): the metadata check fires iff both timestamps are
    present and non-zero and more than 30 days apart, or the edit count
    exceeds 20 and more than one required field is missing; it is then
    reported as an indicator, and the confidence score is the rounded sum
    of the fired checks' contributions, 0.1 for this one. *)
Theorem metadata_manipulation_fires_iff :
  (forall m : metadata,
      meta_detected (detect_metadata_manipulation m) = true
      <-> (match creation_time m, upload_time m with
           | Some ct, Some ut => ~ ct == 0 /\ ~ ut == 0 /\ 86400 * 30 < Qabs (ut - ct)
           | _, _ => False
           end
           \/ (20 < default 0 (edit_count m)
               /\ (1 < length (filter negb [truthy_str (md_title m);
                                            truthy_str (md_description m);
                                            truthy_num (md_duration m)]))%nat)))
  /\
  (forall cid dup ai eng beh qual meta,
      let r := aggregate cid dup ai eng beh qual meta in
      (In "metadata_manipulation" (map ind_type (fr_fraud_indicators r))
       <-> meta_detected meta = true)
      /\ fr_confidence_score r
         = round3 (0 + (if qlt (85#100) dup then 4#10 else 0)
                     + (if qlt (8#10) ai then 25#100 else 0)
                     + (if eng_detected eng then 5#10 else 0)
                     + (if beh_suspicious beh then 3#10 else 0)
                     + (if qual_detected qual then 2#10 else 0)
                     + (if meta_detected meta then 1#10 else 0))).
Proof.
  split.
  - intros m. rewrite meta_detected_bool.
    rewrite orb_true_iff, andb_true_iff, qlt_spec, Nat.ltb_lt.
    destruct (creation_time m) as [ct|], (upload_time m) as [ut|];
      try (split; [intros [H|H]; [discriminate | right; exact H]
                  | intros [H|H]; [contradiction | right; exact H]]).
    rewrite !andb_true_iff, !truthy_num_Some, qlt_spec. tauto.
  - intros cid dup ai eng beh qual meta. cbv zeta. unfold aggregate.
    unfold SIMILARITY_THRESHOLD, AI_CONTENT_CONFIDENCE_THRESHOLD.
    destruct (qlt (85#100) dup), (qlt (8#10) ai), (eng_detected eng),
      (beh_suspicious beh), (qual_detected qual), (meta_detected meta);
      simpl; split; try reflexivity; split; intros H;
      try reflexivity; try discriminate;
      repeat (destruct H as [H|H]; try discriminate); try contradiction;
      auto 10.
Qed.

(** C5 counterexample: an edit count above 20 with complete metadata and
    no timestamps does not fire the metadata check. *)
Lemma metadata_edit_count_alone_counterexample :
  let m := mkMetadata None None (Some 21) (Some "Title") (Some "About") (Some 10) in
  20 < default 0 (edit_count m)
  /\ meta_detected (detect_metadata_manipulation m) = false
  /\ meta_score (detect_metadata_manipulation m) = 1#5.
Proof. split; [reflexivity | split; reflexivity]. Qed.

Lemma behavior_keeps_hashes st cr c e :
  content_hashes (snd (analyze_creator_behavior st cr c e)) = content_hashes st.
Proof.
  unfold analyze_creator_behavior.
  destruct (Nat.ltb 10 _); destruct (Nat.ltb 5 _ && _); reflexivity.
Qed.

Lemma check_duplicate_registers md5 st c e :
  content_hashes st ⊆ content_hashes (snd (check_duplicate_content md5 st c e))
  /\ generate_content_hash md5 c ∈ content_hashes (snd (check_duplicate_content md5 st c e)).
Proof.
  unfold check_duplicate_content.
  destruct (decide (generate_content_hash md5 c ∈ content_hashes st)) as [H|H];
    simpl; split; set_solver.
Qed.

Lemma check_duplicate_hit md5 st c e :
  generate_content_hash md5 c ∈ content_hashes st ->
  check_duplicate_content md5 st c e = (1, st).
Proof.
  intros H. unfold check_duplicate_content.
  destruct (decide _) as [_|Hn]; [reflexivity | contradiction].
Qed.

Lemma detect_registers md5 st e c :
  content_hashes st ⊆ content_hashes (snd (detect_content_fraud md5 st e c))
  /\ generate_content_hash md5 c ∈ content_hashes (snd (detect_content_fraud md5 st e c)).
Proof.
  unfold detect_content_fraud.
  pose proof (check_duplicate_registers md5 st c e) as [H1 H2].
  destruct (check_duplicate_content md5 st c e) as [d s1]; simpl in *.
  pose proof (behavior_keeps_hashes s1 (creator_id c) c e) as Hk.
  destruct (analyze_creator_behavior s1 (creator_id c) c e) as [b s2]; simpl in *.
  rewrite Hk. auto.
Qed.

Lemma detect_many_keeps md5 st calls h :
  h ∈ content_hashes st -> h ∈ content_hashes (detect_many md5 st calls).
Proof.
  revert st. induction calls as [|[e c] cs IH]; intros st H; simpl; [exact H|].
  apply IH. apply (proj1 (detect_registers md5 st e c)). exact H.
Qed.

Lemma detect_on_registered md5 st e c :
  generate_content_hash md5 c ∈ content_hashes st ->
  fr_fraud_indicators (fst (detect_content_fraud md5 st e c)) <> []
  /\ hd_error (fr_fraud_indicators (fst (detect_content_fraud md5 st e c)))
     = Some (mkIndicator "duplicate_content" 1 "high").
Proof.
  intros H. unfold detect_content_fraud. rewrite (check_duplicate_hit md5 st c e H).
  destruct (analyze_creator_behavior st (creator_id c) c e) as [b s2]; simpl.
  unfold aggregate. simpl.
  repeat match goal with |- context [if ?b then _ else _] => destruct b end;
  simpl; split; first [discriminate | reflexivity].
Qed.

(** C10: [_check_duplicate_content] registers the hash of title plus
    description, so a second check of a record with the same title and
    description returns 1.0; and once [detect_content_fraud] has seen a
    record, any later call on a record with the same title and description,
    whatever calls come in between, reports a "duplicate_content" indicator
    with score 1.0 and severity "high". *)
Theorem duplicate_check_is_stateful :
  forall (md5 : string -> string) (st : detector) (c c' : content) (e e' : env)
         (calls : list (env * content)),
    title c' = title c ->
    description c' = description c ->
    fst (check_duplicate_content md5 (snd (check_duplicate_content md5 st c e)) c' e') = 1
    /\ In (mkIndicator "duplicate_content" 1 "high")
          (fr_fraud_indicators
             (fst (detect_content_fraud md5
                     (detect_many md5 (snd (detect_content_fraud md5 st e c)) calls)
                     e' c'))).
Proof.
  intros md5 st c c' e e' calls Ht Hd.
  assert (Hh : generate_content_hash md5 c' = generate_content_hash md5 c)
    by (unfold generate_content_hash; rewrite Ht, Hd; reflexivity).
  split.
  - rewrite (check_duplicate_hit md5 _ c' e'); [reflexivity|].
    rewrite Hh. apply check_duplicate_registers.
  - assert (Hin : generate_content_hash md5 c'
                  ∈ content_hashes (detect_many md5 (snd (detect_content_fraud md5 st e c)) calls)).
    { apply detect_many_keeps. rewrite Hh. apply detect_registers. }
    destruct (detect_on_registered md5 _ e' c' Hin) as [_ Hhd].
    destruct (fr_fraud_indicators _) as [|i is]; [discriminate|].
    injection Hhd as ->. left. reflexivity.
Qed.

Lemma duplicate_check_is_stateful_witness :
  let c := mkContent "c1" "creator1" "Hello" "World" [] 10 1 0 0 (1#2)
             (mkMetadata None None None (Some "Hello") (Some "World") (Some 30)) in
  let c' := mkContent "c2" "creator2" "Hello" "World" ["x"] 5 0 0 0 (9#10)
              (mkMetadata None None None None None None) in
  let other := mkContent "c3" "creator1" "Other" "Text" [] 0 0 0 0 (1#2)
                 (mkMetadata None None None None None None) in
  let e := mkEnv 1000 (1#10) (1#5) 0 in
  fst (check_duplicate_content (fun s => s)
         (snd (check_duplicate_content (fun s => s) init c e)) c' e) = 1
  /\ In (mkIndicator "duplicate_content" 1 "high")
        (fr_fraud_indicators
           (fst (detect_content_fraud (fun s => s)
                   (detect_many (fun s => s)
                      (snd (detect_content_fraud (fun s => s) init e c)) [(e, other)])
                   e c'))).
Proof.
  cbv zeta. apply duplicate_check_is_stateful; reflexivity.
Defined.

End FraudProofs.

(** ** Fallback of detect_content_fraud *)

(** When the try block of [detect_content_fraud] raises on a content
    dictionary (the declared [Dict[str, Any]] input), whatever the checks
    do, the call returns the fallback assessment: risk "medium", confidence
    0, no indicators, and the recommendation that manual review is
    recommended. *)
Lemma detect_content_fraud_fallback :
  forall (analysis : pyval -> pyval -> pyval -> pyval -> exc Fraud.fraud_result)
         (kv : list (string * pyval)) (err : string),
    FraudTop.try_block analysis (PDict kv) = Raise err ->
    exists r,
      FraudTop.detect_content_fraud analysis (PDict kv) = Ok r
      /\ Fraud.fr_risk_level r = "medium"
      /\ Fraud.fr_confidence_score r = 0
      /\ Fraud.fr_fraud_indicators r = []
      /\ Fraud.fr_recommendations r
         = ["Manual review recommended due to analysis failure"]
      /\ Fraud.fr_analysis_details r = Fraud.FallbackDetails.
Proof.
  intros analysis kv err H.
  unfold FraudTop.detect_content_fraud, py_try. rewrite H. simpl.
  eexists. split; [reflexivity|]. simpl. repeat split.
Qed.

(** C6: on a malformed input that is not a dictionary (for instance
    [None]), the first [content_data.get] of the try block raises
    [AttributeError], a top-level failure; the handler calls
    [content_data.get] again to log the content id, which raises the same
    error, so the fault propagates out of [detect_content_fraud] and no
    fallback assessment is returned, whatever the analysis does. *)
Theorem detect_content_fraud_malformed_propagates
    (analysis : pyval -> pyval -> pyval -> pyval -> exc Fraud.fraud_result)
    (v : pyval) :
  (forall kv, v <> PDict kv) ->
  FraudTop.try_block analysis v = Raise "AttributeError"
  /\ FraudTop.detect_content_fraud analysis v = Raise "AttributeError".
Proof.
  intros H. destruct v as [|b|q|s|l|kv];
    try (split; reflexivity).
  exfalso. exact (H kv eq_refl).
Qed.

Lemma detect_content_fraud_malformed_propagates_witness :
  (forall kv, PNone <> PDict kv)
  /\ FraudTop.try_block (fun _ _ _ _ => Raise "KeyError") PNone = Raise "AttributeError"
  /\ FraudTop.detect_content_fraud (fun _ _ _ _ => Raise "KeyError") PNone
     = Raise "AttributeError".
Proof.
  assert (H : forall kv, PNone <> PDict kv) by (intros kv Heq; discriminate Heq).
  split; [exact H|].
  exact (detect_content_fraud_malformed_propagates (fun _ _ _ _ => Raise "KeyError") PNone H).
Defined.

(** ** Quality scores *)

Lemma Qmake_1000 (n : Z) : (n # 1000) == inject_Z n * (1#1000).
Proof. unfold Qeq, inject_Z, Qmult; simpl. lia. Qed.

(** [round3 x] is [n / 1000] for an integer [n] within 1/2 of [1000 x],
    and [0 <= n <= 1000] when [x] is in [0, 1]. *)
Lemma round3_int (x : Q) :
  exists n : Z,
    round3 x == inject_Z n * (1#1000)
    /\ inject_Z n - (1#2) <= x * 1000 <= inject_Z n + (1#2)
    /\ (0 <= x <= 1 -> (0 <= n <= 1000)%Z).
Proof.
  unfold round3.
  set (y := x * 1000). set (f := Qfloor y).
  assert (H1 : inject_Z f <= y) by apply Qfloor_le.
  assert (H2 := Qlt_floor y). fold f in H2.
  rewrite inject_Z_plus in H2. change (inject_Z 1) with 1 in H2.
  assert (Hy : y == x * 1000) by reflexivity.
  clearbody f y.
  assert (Hf : 0 <= x <= 1 -> (0 <= f)%Z /\ (f <= 1000)%Z).
  { intros [Hx0 Hx1]. split.
    - assert (Hlt : (-1 < f)%Z)
        by (rewrite Zlt_Qlt; change (inject_Z (-1)) with (-1 # 1); lra). lia.
    - rewrite Zle_Qle. change (inject_Z 1000) with (1000 # 1). lra. }
  destruct (qlt (y - inject_Z f) (1#2)) eqn:E1;
    [apply qlt_spec in E1 | apply qlt_false in E1].
  - exists f. rewrite Qred_correct, Qmake_1000. split; [reflexivity|]. split; [split; lra|].
    intros Hx. specialize (Hf Hx). lia.
  - destruct (qlt (1#2) (y - inject_Z f)) eqn:E2;
      [apply qlt_spec in E2 | apply qlt_false in E2].
    + exists (f + 1)%Z. rewrite Qred_correct, Qmake_1000, inject_Z_plus.
      change (inject_Z 1) with (1 # 1).
      split; [reflexivity|]. split; [split; lra|].
      intros Hx. specialize (Hf Hx) as [Hf0 Hf1].
      assert (Hlt : (f < 1000)%Z)
        by (rewrite Zlt_Qlt; change (inject_Z 1000) with (1000 # 1); destruct Hx; lra).
      lia.
    + destruct (Z.even f).
      * exists f. rewrite Qred_correct, Qmake_1000. split; [reflexivity|]. split; [split; lra|].
        intros Hx. specialize (Hf Hx). lia.
      * exists (f + 1)%Z. rewrite Qred_correct, Qmake_1000, inject_Z_plus.
      change (inject_Z 1) with (1 # 1).
        split; [reflexivity|]. split; [split; lra|].
        intros Hx. specialize (Hf Hx) as [Hf0 Hf1].
        assert (Hlt : (f < 1000)%Z)
          by (rewrite Zlt_Qlt; change (inject_Z 1000) with (1000 # 1); destruct Hx; lra).
      lia.
Qed.

Lemma round3_bounds (x : Q) : x - (1#2000) <= round3 x <= x + (1#2000).
Proof.
  destruct (round3_int x) as [n [Hr [Hb _]]]. rewrite Hr. lra.
Qed.

Lemma round3_unit (x : Q) : 0 <= x <= 1 -> 0 <= round3 x <= 1.
Proof.
  intros Hx. destruct (round3_int x) as [n [Hr [_ Hn]]].
  specialize (Hn Hx) as [Hn0 Hn1]. rewrite Zle_Qle in Hn0, Hn1.
  change (inject_Z 0) with (0 # 1) in Hn0. change (inject_Z 1000) with (1000 # 1) in Hn1.
  rewrite Hr. lra.
Qed.

Lemma clamp01_unit (s : Q) : 0 <= Quality.clamp01 s <= 1.
Proof.
  unfold Quality.clamp01, py_max, py_min.
  destruct (qlt s 1) eqn:E1; [apply qlt_spec in E1 | apply qlt_false in E1];
  [destruct (qlt 0 s) eqn:E2 | destruct (qlt 0 1) eqn:E2];
  first [apply qlt_spec in E2 | apply qlt_false in E2]; lra.
Qed.

Section QualityProofs.
Import Quality.

(** C3 (as amended): the five returned sub-scores and the returned overall
    score lie in [0, 1]; each is [round(_, 3)] of an unrounded value, the
    unrounded overall score being exactly the weighted sum 0.25, 0.20, 0.20,
    0.15, 0.20 of the unrounded sub-scores; so the returned overall score
    is within 0.001 (not 1e-6) of the weighted sum of the returned
    sub-scores. *)
Theorem calculate_scores_rounded_weighted_sum :
  forall f : features,
    let r := calculate_scores f in
    let eng := calculate_engagement_score f in
    let edu := calculate_educational_score f in
    let cre := calculate_creativity_score f in
    let saf := calculate_safety_score f in
    let pro := calculate_production_score f in
    (0 <= engagement r <= 1) /\ (0 <= educational r <= 1)
    /\ (0 <= creativity r <= 1) /\ (0 <= safety r <= 1)
    /\ (0 <= production r <= 1) /\ (0 <= overall_score r <= 1)
    /\ engagement r = round3 eng /\ educational r = round3 edu
    /\ creativity r = round3 cre /\ safety r = round3 saf
    /\ production r = round3 pro
    /\ overall_score r
       = round3 (eng * (25#100) + edu * (20#100) + cre * (20#100)
                 + saf * (15#100) + pro * (20#100))
    /\ Qabs (overall_score r
             - weighted_overall scorer_weights (engagement r) (educational r)
                 (creativity r) (safety r) (production r)) <= 1#1000.
Proof.
  intros f. cbv zeta.
  assert (Hunit : forall g, (g = calculate_engagement_score \/ g = calculate_educational_score
                             \/ g = calculate_creativity_score \/ g = calculate_safety_score
                             \/ g = calculate_production_score) -> 0 <= g f <= 1).
  { intros g Hg. repeat destruct Hg as [Hg|Hg]; subst g; apply clamp01_unit. }
  pose proof (Hunit _ (or_introl eq_refl)) as He.
  pose proof (Hunit _ (or_intror (or_introl eq_refl))) as Hd.
  pose proof (Hunit _ (or_intror (or_intror (or_introl eq_refl)))) as Hc.
  pose proof (Hunit _ (or_intror (or_intror (or_intror (or_introl eq_refl))))) as Hs.
  pose proof (Hunit _ (or_intror (or_intror (or_intror (or_intror eq_refl))))) as Hp.
  clear Hunit.
  unfold calculate_scores, weighted_overall, scorer_weights.
  cbn [overall_score engagement educational creativity safety production
       w_engagement w_educational w_creativity w_safety w_production].
  generalize dependent (calculate_engagement_score f).
  generalize dependent (calculate_educational_score f).
  generalize dependent (calculate_creativity_score f).
  generalize dependent (calculate_safety_score f).
  generalize dependent (calculate_production_score f).
  intros p Hp s Hs c Hc d Hd e He.
  pose proof (round3_unit e He). pose proof (round3_unit d Hd).
  pose proof (round3_unit c Hc). pose proof (round3_unit s Hs).
  pose proof (round3_unit p Hp).
  assert (Ho : 0 <= e * (25#100) + d * (20#100) + c * (20#100) + s * (15#100)
                    + p * (20#100) <= 1) by lra.
  pose proof (round3_unit _ Ho).
  pose proof (round3_bounds e). pose proof (round3_bounds d).
  pose proof (round3_bounds c). pose proof (round3_bounds s).
  pose proof (round3_bounds p).
  pose proof (round3_bounds (e * (25#100) + d * (20#100) + c * (20#100)
                             + s * (15#100) + p * (20#100))).
  split; [lra|]. split; [lra|]. split; [lra|]. split; [lra|]. split; [lra|].
  split; [lra|].
  do 6 (split; [reflexivity|]).
  apply Qabs_Qle_condition. split; lra.
Qed.

End QualityProofs.

Section QualityCounterexample.
Import Quality.

(** C3 counterexample: with only [ai_engagement_potential = 0.5016] set,
    the returned overall score is 0.475 while the weighted sum of the
    returned (rounded) sub-scores is 0.47525, a gap of 0.00025 > 1e-6. *)
Lemma calculate_scores_weighted_sum_counterexample :
  let f := mkFeatures None None None None None None None None (Some (5016#10000))
             None None None None None None None None None None None None None
             None None None None None None None None None None None None None
             None None None in
  let r := calculate_scores f in
  engagement r == 501#1000 /\ overall_score r == 475#1000
  /\ 1#1000000 < Qabs (overall_score r
                       - weighted_overall scorer_weights (engagement r) (educational r)
                           (creativity r) (safety r) (production r)).
Proof. vm_compute. repeat split; reflexivity. Qed.

End QualityCounterexample.

(** ** Configuration validation *)

Section ConfigProofs.
Import Config PrimFloat.

(** C7: the weight check of [validate_config] is the float test
    [abs(weight_sum - 1.0) > 0.01]; [validate_config] returns True exactly
    when that test fails, the API key is non-empty and the port is in
    1..65535; and importing [config.py] never fails: whatever the weights,
    it only prints the errors and a warning, so no configuration is
    rejected at initialization.  With a non-empty key and port 5000, the
    weights 0.26, 0.20, 0.20, 0.20 and 0.15, whose decimal sum 1.01 lies
    within 0.01 of 1.0, fail the float test (the rounded difference
    exceeds 0.01): [validate_config] returns False with the weight error. *)
Theorem validate_config_float_weights :
  (forall c : config,
     (In "Quality weights must sum to 1.0"%string (snd (validate_config c))
        <-> weights_off (QUALITY_WEIGHTS c) = true)
     /\ (fst (validate_config c) = true <->
           weights_off (QUALITY_WEIGHTS c) = false
           /\ OPENAI_API_KEY c <> ""%string /\ (1 <= PORT c <= 65535)%Z)
     /\ import_config c
        = Ok (snd (validate_config c)
              ++ (if fst (validate_config c) then [] else [config_warning])))
  /\ (let c := mkConfig "sk-test" 5000
                 [("engagement", 0.26%float); ("educational", 0.20%float);
                  ("creativity", 0.20%float); ("safety", 0.20%float);
                  ("production", 0.15%float)] in
      (Qabs ((26#100) + (20#100) + (20#100) + (20#100) + (15#100) - 1) <= 1#100)%Q
      /\ weights_off (QUALITY_WEIGHTS c) = true
      /\ validate_config c
         = (false, ["Configuration errors:"; "Quality weights must sum to 1.0"])%string
      /\ import_config c
         = Ok ["Configuration errors:"; "Quality weights must sum to 1.0";
               config_warning]%string).
Proof.
  split.
  - intros c. unfold import_config, validate_config, config_errors, config_warning.
    destruct (String.eqb_spec (OPENAI_API_KEY c) "") as [Ek|Ek];
    destruct ((1 <=? PORT c)%Z && (PORT c <=? 65535)%Z) eqn:Ep;
    [rewrite andb_true_iff, !Z.leb_le in Ep | rewrite andb_false_iff, !Z.leb_gt in Ep
    |rewrite andb_true_iff, !Z.leb_le in Ep | rewrite andb_false_iff, !Z.leb_gt in Ep];
    destruct (weights_off (QUALITY_WEIGHTS c));
    cbn [app fst snd In];
    intuition (try congruence; try lia).
  - cbv zeta. split; [vm_compute; intros H; discriminate H|].
    split; [reflexivity|]. split; reflexivity.
Qed.

End ConfigProofs.

(** ** Quality trends *)

Section TrendProofs.
Import Quality Trends.

(** When no entry of the selected history lies inside the window, the
    answer is the no-data response. *)
Lemma get_quality_trends_no_data :
  forall h cid time_range now days,
    py_int (rstrip_d time_range) = Ok days ->
    filter (fun e => qlt (now - inject_Z days * 86400) (h_timestamp e))
      (if truthy_str cid then default [] (hist_lookup (default "" cid) h)
       else concat (map snd h)) = [] ->
    get_quality_trends h cid time_range now = NoData cid time_range.
Proof.
  intros h cid time_range now days Hd Hr.
  unfold get_quality_trends. rewrite Hd. cbv zeta. rewrite Hr. reflexivity.
Qed.

(** C8 (code bug): without a creator the histories are concatenated creator
    by creator, not merged by time. Creator A scores 0.5 at t = 1, creator B
    0.9 at t = 2, creator A 0.4 at t = 3; the concatenation is
    [0.5; 0.4; 0.9], so the 7-day query at t = 10 compares 0.5 with 0.9 and
    reports "improving", while the chronologically first score 0.5 exceeds
    the chronologically last 0.4, which makes the trend "stable". *)
Theorem aggregated_trend_not_chronological :
  let h := store_quality_history
             (store_quality_history
                (store_quality_history [] "c1" (1#2) (features_of_creator "A") 1)
                "c2" (9#10) (features_of_creator "B") 2)
             "c3" (2#5) (features_of_creator "A") 3 in
  (match get_quality_trends h None "7d" 10 with
   | TrendReport _ _ t => score_trend t
   | _ => ""%string
   end) = "improving"%string
  /\ spec_score_trend
       (filter (fun e => qlt (10 - 7 * 86400) (h_timestamp e)) (concat (map snd h)))
     = "stable"%string.
Proof. vm_compute. split; reflexivity. Qed.

End TrendProofs.

(** ** The batch endpoint *)

Section BatchProofs.
Import App.

Lemma cache_get_empty {A} (cm : Cache.manager A) k now :
  Cache.cache cm = ∅ -> Cache.get cm k now = (None, cm).
Proof.
  intros H. unfold Cache.get. rewrite H, lookup_empty. reflexivity.
Qed.

Lemma assess_risk_missing :
  existsb (String.eqb "assess_risk") fraud_detector_methods = false.
Proof. reflexivity. Qed.

Lemma process_items_all_errors ef cs fm ak now :
  forall (items : list (list (string * pyval))) (cm : Cache.manager pyval),
    Cache.cache cm = ∅ ->
    exists results,
      process_items ef cs fm ak cm (map PDict items) now = Ok (results, cm)
      /\ length results = length items
      /\ Forall (fun r => is_error_entry r = true) results.
Proof.
  induction items as [|kv items IH]; intros cm Hcm.
  - exists []. split; [reflexivity|]. split; [reflexivity|]. constructor.
  - destruct (IH cm Hcm) as [rs [Hrs [Hlen Hall]]].
    assert (Hitem : exists e, analyze_item ef cs fm ak cm (PDict kv) now = (cm, Raise e)).
    { unfold analyze_item. cbn [py_get].
      rewrite cache_get_empty by exact Hcm.
      unfold call_fraud_detector. rewrite assess_risk_missing.
      destruct (ef (PDict kv)) as [feat|e]; cbn [exc_bind]; [|eauto].
      destruct (cs feat) as [q|e]; cbn [exc_bind]; eauto. }
    destruct Hitem as [e He].
    eexists. cbn [map process_items]. rewrite He. cbn [py_get exc_bind fst snd].
    rewrite Hrs. cbn [exc_bind fst snd].
    split; [reflexivity|]. split; [cbn; rewrite Hlen; reflexivity|].
    constructor; [reflexivity | exact Hall].
Qed.

Lemma analyze_batch_rejects_over_50 ef cs fm ak cm items now :
  (50 < length items)%nat ->
  analyze_batch ef cs fm ak cm (PDict [("contents", PList items)]) now
  = (Resp 400 (PDict [("error", PStr "Batch size too large (max 50)")]), cm).
Proof.
  intros H. unfold analyze_batch, batch_body. cbn [py_get assoc_lookup].
  rewrite String.eqb_refl. cbn [default from_option id exc_bind].
  destruct items as [|x items]; [cbn in H; lia|].
  cbn [py_truthy negb py_len exc_bind].
  replace (length (x :: items) =? 0)%nat with false by (symmetry; apply Nat.eqb_neq; cbn; lia).
  cbn [negb]. apply Nat.ltb_lt in H. rewrite H. reflexivity.
Qed.

(** C9 (code bug): the endpoint calls [fraud_detector.assess_risk], which
    [FraudDetector] does not define. On a fresh cache, for any analyser and
    scorer, every item of an accepted batch of dictionaries yields a
    per-item error entry and none yields a result: one malformed item among
    ten valid ones gives eleven errors, not ten results and one error. *)
Theorem analyze_batch_no_item_succeeds :
  forall ef cs fm ak (items : list (list (string * pyval))) (now : Q),
    (1 <= length items <= 50)%nat ->
    exists results,
      analyze_batch ef cs fm ak (Cache.init 3600)
        (PDict [("contents", PList (map PDict items))]) now
      = (Resp 200 (PDict [("batch_results", PList results);
                          ("total_processed",
                           PNum (inject_Z (Z.of_nat (length results))))]),
         Cache.init 3600)
      /\ length results = length items
      /\ Forall (fun r => is_error_entry r = true) results.
Proof.
  intros ef cs fm ak items now [H1 H50].
  destruct (process_items_all_errors ef cs fm ak now items (Cache.init 3600) eq_refl)
    as [rs [Hrs [Hlen Hall]]].
  exists rs. split; [|split; assumption].
  unfold analyze_batch, batch_body. cbn [py_get assoc_lookup].
  rewrite String.eqb_refl. cbn [default from_option id exc_bind].
  destruct items as [|x items]; [cbn in H1; lia|].
  cbn [py_truthy negb py_len exc_bind py_iter].
  rewrite length_map.
  replace (length (x :: items) =? 0)%nat with false by (symmetry; apply Nat.eqb_neq; cbn; lia).
  replace (50 <? length (x :: items))%nat with false by (symmetry; apply Nat.ltb_ge; lia).
  cbn [negb]. rewrite Hrs. reflexivity.
Qed.

Lemma analyze_batch_no_item_succeeds_witness :
  (1 <= length example_items <= 50)%nat
  /\ exists results,
      analyze_batch example_extract_features example_calculate_scores
        example_fraud_method (fun _ => "analysis:item"%string) (Cache.init 3600)
        (PDict [("contents", PList (map PDict example_items))]) 0
      = (Resp 200 (PDict [("batch_results", PList results);
                          ("total_processed",
                           PNum (inject_Z (Z.of_nat (length results))))]),
         Cache.init 3600)
      /\ length results = length example_items
      /\ Forall (fun r => is_error_entry r = true) results.
Proof.
  split; [cbn; lia|].
  apply (analyze_batch_no_item_succeeds example_extract_features example_calculate_scores
           example_fraud_method (fun _ => "analysis:item"%string) example_items 0).
  cbn; lia.
Defined.

End BatchProofs.

(** * Further properties of the code *)

(** ** CacheManager *)

Section CacheExtra.
Context {A : Type}.

Lemma lookup_fold_delete (ks : list string) :
  forall (m : gmap string (Cache.entry A)) k,
    fold_left (fun m k => stdpp.base.delete k m) ks m !! k
    = if existsb (String.eqb k) ks then None else m !! k.
Proof.
  induction ks as [|k0 ks IH]; intros m k; simpl; [reflexivity|].
  rewrite IH. destruct (String.eqb_spec k k0) as [->|Hne]; simpl.
  - rewrite lookup_delete_eq. destruct (existsb _ ks); reflexivity.
  - rewrite lookup_delete_ne by congruence. reflexivity.
Qed.

Lemma existsb_expired_keys (m : gmap string (Cache.entry A)) now k :
  existsb (String.eqb k)
    (map fst (List.filter (fun kv => CacheOps.expired now (snd kv)) (map_to_list m)))
  = match m !! k with Some e => CacheOps.expired now e | None => false end.
Proof.
  destruct (existsb _ _) eqn:E.
  - apply existsb_exists in E as [k' [Hin Hk]]. apply String.eqb_eq in Hk. subst k'.
    apply in_map_iff in Hin as [[k1 e] [Hk1 Hin]]. simpl in Hk1. subst k1.
    apply filter_In in Hin as [Hin Hexp].
    apply list_elem_of_In, elem_of_map_to_list in Hin. rewrite Hin. symmetry. exact Hexp.
  - destruct (m !! k) as [e|] eqn:Hm; [|reflexivity].
    destruct (CacheOps.expired now e) eqn:Hexp; [|reflexivity].
    rewrite <- E. apply existsb_exists. exists k. split; [|apply String.eqb_refl].
    apply in_map_iff. exists (k, e). split; [reflexivity|].
    apply filter_In. split; [|exact Hexp].
    apply list_elem_of_In, elem_of_map_to_list. exact Hm.
Qed.

Lemma status_fold now (l : list (string * Cache.entry A)) :
  forall a x,
    fold_left (fun acc kv => if CacheOps.expired now (snd kv)
                             then (fst acc, S (snd acc)) else (S (fst acc), snd acc))
              l (a, x)
    = (a + length (List.filter (fun kv => negb (CacheOps.expired now (snd kv))) l),
       x + length (List.filter (fun kv => CacheOps.expired now (snd kv)) l))%nat.
Proof.
  induction l as [|kv l IH]; intros a x; simpl.
  - f_equal; lia.
  - destruct (CacheOps.expired now (snd kv)); simpl; rewrite IH; f_equal; lia.
Qed.

Lemma filter_length_split {T} (p : T -> bool) (l : list T) :
  (length (List.filter (fun y => negb (p y)) l) + length (List.filter p l) = length l)%nat.
Proof.
  induction l as [|y l IH]; simpl; [reflexivity|].
  destruct (p y); simpl; lia.
Qed.

Lemma string_app_inj_l (p s1 s2 : string) :
  (p ++ s1)%string = (p ++ s2)%string -> s1 = s2.
Proof.
  induction p as [|a p IH]; simpl; [tauto|].
  intros H. injection H as H. exact (IH H).
Qed.

Lemma filter_all_false {T} (p : T -> bool) (l : list T) :
  (forall y, In y l -> p y = false) -> List.filter p l = [].
Proof.
  induction l as [|y l IH]; intros H; simpl; [reflexivity|].
  rewrite (H y (or_introl eq_refl)). apply IH. intros z Hz. apply H. right. exact Hz.
Qed.

Lemma set_other_key (m : Cache.manager A) (k k' : string) (v : A)
    (ttl : option Q) (now now' : Q) :
  k' <> k ->
  Cache.cache (snd (Cache.set m k v ttl now)) !! k' = Cache.cache m !! k'
  /\ fst (Cache.get (snd (Cache.set m k v ttl now)) k' now') = fst (Cache.get m k' now').
Proof.
  intros Hne.
  assert (H : Cache.cache (snd (Cache.set m k v ttl now)) !! k' = Cache.cache m !! k').
  { unfold Cache.set; simpl. rewrite lookup_insert_ne by congruence. reflexivity. }
  split; [exact H|].
  unfold Cache.get at 1. rewrite H. unfold Cache.get.
  destruct (Cache.cache m !! k'); [|reflexivity].
  destruct (qlt _ _); reflexivity.
Qed.

End CacheExtra.

(** [delete(key)] reports whether the key was present; afterwards [get]
    misses on it and every other key is untouched. *)
Theorem cache_delete_spec {A} (m : Cache.manager A) (k : string) (now : Q) :
  (fst (CacheOps.delete m k) = true <-> is_Some (Cache.cache m !! k))
  /\ fst (Cache.get (snd (CacheOps.delete m k)) k now) = None
  /\ (forall k', k' <> k ->
        Cache.cache (snd (CacheOps.delete m k)) !! k' = Cache.cache m !! k').
Proof.
  unfold CacheOps.delete. destruct (Cache.cache m !! k) as [e|] eqn:Hk; simpl.
  - split; [split; intros; [eexists; reflexivity | reflexivity]|].
    split.
    + unfold Cache.get; simpl. rewrite lookup_delete_eq. reflexivity.
    + intros k' Hne. rewrite lookup_delete_ne by congruence. reflexivity.
  - split; [split; intros H; [discriminate H | destruct H as [? H]; discriminate H]|].
    split; [unfold Cache.get; rewrite Hk; reflexivity | intros; reflexivity].
Qed.

(** [set(k, ...)] leaves every other key as it was: a later [get(k')]
    answers as before the [set]. *)
Theorem cache_set_other_keys {A} (m : Cache.manager A) (k k' : string) (v : A)
    (ttl : option Q) (now now' : Q) :
  k' <> k ->
  Cache.cache (snd (Cache.set m k v ttl now)) !! k' = Cache.cache m !! k'
  /\ fst (Cache.get (snd (Cache.set m k v ttl now)) k' now') = fst (Cache.get m k' now').
Proof. apply set_other_key. Qed.

Lemma cache_set_other_keys_witness :
  ("b" <> "a")%string
  /\ Cache.cache (snd (Cache.set (Cache.init 3600) "a" 1%nat None 0)) !! "b"
     = Cache.cache (Cache.init (A:=nat) 3600) !! "b"
  /\ fst (Cache.get (snd (Cache.set (Cache.init 3600) "a" 1%nat None 0)) "b" 5)
     = fst (Cache.get (Cache.init (A:=nat) 3600) "b" 5).
Proof.
  split; [discriminate|].
  apply (cache_set_other_keys (Cache.init 3600) "a" "b" 1%nat None 0 5). discriminate.
Defined.

(** [get(k)] never returns an expired value: a hit comes from a stored
    entry whose [expires_at] is not before [now]; and [get(k)] changes no
    other key. *)
Theorem cache_get_hit_unexpired {A} (m : Cache.manager A) (k : string) (now : Q) :
  (forall v, fst (Cache.get m k now) = Some v ->
     exists e, Cache.cache m !! k = Some e /\ Cache.value e = v
               /\ now <= Cache.expires_at e)
  /\ (forall k', k' <> k ->
        Cache.cache (snd (Cache.get m k now)) !! k' = Cache.cache m !! k').
Proof.
  unfold Cache.get. destruct (Cache.cache m !! k) as [e|] eqn:Hk.
  - destruct (qlt (Cache.expires_at e) now) eqn:Hexp; simpl.
    + split; [intros v H; discriminate H|].
      intros k' Hne. rewrite lookup_delete_ne by congruence. reflexivity.
    + split.
      * intros v H. injection H as <-. exists e. split; [reflexivity|].
        split; [reflexivity|]. apply qlt_false. exact Hexp.
      * intros k' Hne. rewrite lookup_insert_ne by congruence. reflexivity.
  - simpl. split; [intros v H; discriminate H | intros; reflexivity].
Qed.

Lemma cache_get_hit_unexpired_witness :
  (exists e, Cache.cache (snd (Cache.set (Cache.init 3600) "a" 1%nat (Some 10) 0)) !! "a"
               = Some e /\ Cache.value e = 1%nat /\ 4 <= Cache.expires_at e)
  /\ Cache.cache (snd (Cache.get (snd (Cache.set (Cache.init 3600) "a" 1%nat (Some 10) 0))
                               "a" 4)) !! "b"
     = Cache.cache (snd (Cache.set (Cache.init 3600) "a" 1%nat (Some 10) 0)) !! "b".
Proof.
  split.
  - apply (proj1 (cache_get_hit_unexpired
                    (snd (Cache.set (Cache.init 3600) "a" 1%nat (Some 10) 0)) "a" 4)).
    reflexivity.
  - apply (proj2 (cache_get_hit_unexpired
                    (snd (Cache.set (Cache.init 3600) "a" 1%nat (Some 10) 0)) "a" 4)).
    discriminate.
Defined.

(** [cleanup_expired()] returns the number of expired entries that
    [get_status()] reports at the same time, removes exactly those entries
    and keeps the others unchanged, so that [get_status()] then reports no
    expired entry. *)
Theorem cache_cleanup_expired_spec {A} (m : Cache.manager A) (now : Q) :
  let '(n, m') := CacheOps.cleanup_expired m now in
  n = CacheOps.expired_entries (CacheOps.get_status m now)
  /\ (forall k, Cache.cache m' !! k
                = match Cache.cache m !! k with
                  | Some e => if CacheOps.expired now e then None else Some e
                  | None => None
                  end)
  /\ CacheOps.expired_entries (CacheOps.get_status m' now) = 0%nat
  /\ Cache.default_ttl m' = Cache.default_ttl m.
Proof.
  unfold CacheOps.cleanup_expired.
  assert (Hlk : forall k,
    fold_left (fun m k => stdpp.base.delete k m)
      (map fst (List.filter (fun kv => CacheOps.expired now (snd kv))
                  (map_to_list (Cache.cache m)))) (Cache.cache m) !! k
    = match Cache.cache m !! k with
      | Some e => if CacheOps.expired now e then None else Some e
      | None => None
      end).
  { intros k. rewrite lookup_fold_delete, existsb_expired_keys.
    destruct (Cache.cache m !! k) as [e|]; [|reflexivity].
    destruct (CacheOps.expired now e); reflexivity. }
  split; [|split; [exact Hlk|split; [|reflexivity]]].
  - unfold CacheOps.get_status. rewrite status_fold. simpl. rewrite length_map. reflexivity.
  - unfold CacheOps.get_status. rewrite status_fold. simpl.
    rewrite filter_all_false; [reflexivity|].
    intros [k e] Hin. apply list_elem_of_In, elem_of_map_to_list in Hin.
    simpl in Hin. rewrite Hlk in Hin. simpl.
    destruct (Cache.cache m !! k) as [e0|]; [|discriminate Hin].
    destruct (CacheOps.expired now e0) eqn:He0; [discriminate Hin|].
    injection Hin as <-. exact He0.
Qed.

(** In [get_status()], active and expired entries add up to the total. *)
Theorem cache_status_partition {A} (m : Cache.manager A) (now : Q) :
  let s := CacheOps.get_status m now in
  (CacheOps.active_entries s + CacheOps.expired_entries s = CacheOps.total_entries s)%nat.
Proof.
  unfold CacheOps.get_status. rewrite status_fold. simpl.
  rewrite <- length_map_to_list.
  apply (filter_length_split (fun kv : string * Cache.entry A => CacheOps.expired now (snd kv))).
Qed.

(** [set_analysis(cid, v)] with the default TTL (not negative) is read
    back by [get_analysis(cid)] at the same time, and leaves
    [get_analysis] of every other content id as it was. *)
Theorem cache_analysis_round_trip {A} (m : Cache.manager A) (cid cid' : string) (v : A)
    (now now' : Q) :
  0 <= Cache.default_ttl m ->
  fst (CacheOps.get_analysis (snd (CacheOps.set_analysis m cid v None now)) cid now) = Some v
  /\ (cid' <> cid ->
      fst (CacheOps.get_analysis (snd (CacheOps.set_analysis m cid v None now)) cid' now')
      = fst (CacheOps.get_analysis m cid' now')).
Proof.
  intros Httl. unfold CacheOps.get_analysis, CacheOps.set_analysis. split.
  - unfold Cache.get, Cache.set; simpl. rewrite lookup_insert_eq; simpl.
    replace (qlt (now + Cache.default_ttl m) now) with false; [reflexivity|].
    symmetry. apply qlt_false. lra.
  - intros Hne. apply (set_other_key m).
    unfold CacheOps.analysis_key. intros H. apply Hne.
    apply (string_app_inj_l "analysis:"). exact H.
Qed.

Lemma cache_analysis_round_trip_witness :
  (0 <= Cache.default_ttl (Cache.init (A:=nat) 3600))
  /\ fst (CacheOps.get_analysis
            (snd (CacheOps.set_analysis (Cache.init 3600) "c1" 7%nat None 0)) "c1" 0)
     = Some 7%nat
  /\ (("c2" <> "c1")%string ->
      fst (CacheOps.get_analysis
             (snd (CacheOps.set_analysis (Cache.init 3600) "c1" 7%nat None 0)) "c2" 9)
      = fst (CacheOps.get_analysis (Cache.init (A:=nat) 3600) "c2" 9)).
Proof.
  assert (H : 0 <= Cache.default_ttl (Cache.init (A:=nat) 3600)) by (simpl; lra).
  split; [exact H|].
  exact (cache_analysis_round_trip (Cache.init 3600) "c1" "c2" 7%nat 0 9 H).
Defined.

(** ** QualityScorer history and trends *)

Section HistoryExtra.
Import Quality Trends ScorerStatus.

Lemma hist_lookup_update (k k' : string) (f : list hentry -> list hentry)
    (h : quality_history) :
  hist_lookup k (hist_update k' f h)
  = if String.eqb k k' then Some (f (default [] (hist_lookup k' h)))
    else hist_lookup k h.
Proof.
  induction h as [|[k0 l] h IH]; simpl.
  - destruct (String.eqb k k'); reflexivity.
  - destruct (String.eqb_spec k' k0) as [->|Hne].
    + simpl. destruct (String.eqb k k0); reflexivity.
    + simpl. rewrite IH.
      destruct (String.eqb_spec k k0) as [->|Hk0].
      * destruct (String.eqb_spec k0 k') as [Heq|]; [congruence|reflexivity].
      * reflexivity.
Qed.

Lemma length_last_n {T} (n : nat) (l : list T) :
  length (last_n n l) = Nat.min n (length l).
Proof. unfold last_n. rewrite length_skipn. lia. Qed.

Lemma last_n_snoc {T} (n : nat) (l : list T) (x : T) :
  (1 <= n)%nat -> exists pre, last_n n (l ++ [x]) = pre ++ [x].
Proof.
  intros Hn. unfold last_n. rewrite skipn_app, length_app. simpl.
  replace (length l + 1 - n - length l)%nat with 0%nat by lia.
  exists (skipn (length l + 1 - n) l). reflexivity.
Qed.

Lemma list_sum_bound (h : quality_history) :
  Forall (fun kv => (length (snd kv) <= 100)%nat) h ->
  (list_sum (map (fun kv => length (snd kv)) h) <= 100 * length h)%nat.
Proof.
  induction h as [|kv h IH]; intros Hf; simpl; [lia|].
  inversion Hf as [|? ? Hkv Hh]; subst. specialize (IH Hh). lia.
Qed.

Lemma hist_update_forall (P : string * list hentry -> Prop) k f (h : quality_history) :
  Forall P h -> (forall l, P (k, f l)) -> (forall k' l, P (k', l) -> P (k', f l)) ->
  Forall P (hist_update k f h).
Proof.
  intros Hh Hnew Hupd. induction Hh as [|[k0 l] h Hkl Hh IH]; simpl.
  - constructor; [apply Hnew | constructor].
  - destruct (String.eqb k k0); constructor; auto.
Qed.

End HistoryExtra.

Section HistoryTheorems.
Import Quality Trends ScorerStatus.

(** [_store_quality_history] appends the new entry to the creator's list
    and keeps the last 100 entries, the new one last; the lists of the
    other creators are untouched. *)
Theorem store_quality_history_spec (h : quality_history) (cid : string) (score : Q)
    (f : features) (now : Q) :
  let creator := default "unknown" (f_creator_id f) in
  let e := mkHEntry cid score now (default "unknown" (f_content_type f)) in
  let h' := store_quality_history h cid score f now in
  (exists l pre,
      hist_lookup creator h' = Some l
      /\ l = last_n 100 (default [] (hist_lookup creator h) ++ [e])
      /\ l = pre ++ [e]
      /\ length l = Nat.min 100 (S (length (default [] (hist_lookup creator h)))))
  /\ (forall k, k <> creator -> hist_lookup k h' = hist_lookup k h).
Proof.
  cbv zeta. unfold store_quality_history. split.
  - destruct (last_n_snoc 100 (default [] (hist_lookup (default "unknown" (f_creator_id f)) h))
                (mkHEntry cid score now (default "unknown" (f_content_type f))))
      as [pre Hpre]; [lia|].
    eexists; exists pre. rewrite hist_lookup_update, String.eqb_refl.
    split; [reflexivity|]. split; [reflexivity|]. split; [exact Hpre|].
    rewrite length_last_n, length_app. cbn [length]. lia.
  - intros k Hk. rewrite hist_lookup_update.
    destruct (String.eqb_spec k (default "unknown" (f_creator_id f))); [congruence|reflexivity].
Qed.

(** [get_status()] of the scorer: since every creator keeps at most 100
    entries, [history_size] never exceeds 100 times [creators_tracked]
    for a history built by [_store_quality_history] calls. *)
Theorem scorer_history_size_bounded (calls : list (string * Q * features * Q)) :
  let st := get_status (store_all [] calls) in
  (history_size st <= 100 * creators_tracked st)%nat.
Proof.
  cbv zeta. unfold get_status; simpl. apply list_sum_bound.
  unfold store_all.
  assert (Hgen : forall h, Forall (fun kv => (length (snd kv) <= 100)%nat) h ->
            Forall (fun kv => (length (snd kv) <= 100)%nat)
              (fold_left (fun h c => let '(cid, s, f, t) := c in
                                     store_quality_history h cid s f t) calls h)).
  { induction calls as [|[[[cid s] f] t] calls IH]; intros h Hh; simpl; [exact Hh|].
    apply IH. unfold store_quality_history.
    apply hist_update_forall; [exact Hh| |].
    - intros l. simpl. rewrite length_last_n. lia.
    - intros k' l _. simpl. rewrite length_last_n. lia. }
  apply Hgen. constructor.
Qed.

End HistoryTheorems.

Section TrendExtra.
Import Quality Trends ScorerStatus.

Lemma count_cons (p : Q -> bool) (x : Q) (xs : list Q) :
  count p (x :: xs) = ((if p x then 1 else 0) + count p xs)%nat.
Proof.
  unfold count. rewrite filter_cons.
  case_decide as Hd; destruct (p x); simpl in Hd |- *; tauto.
Qed.

Lemma dist_partition (xs : list Q) :
  (count (fun s => qle (8#10) s) xs
   + count (fun s => qle (6#10) s && qlt s (8#10)) xs
   + count (fun s => qle (4#10) s && qlt s (6#10)) xs
   + count (fun s => qlt s (4#10)) xs = length xs)%nat.
Proof.
  induction xs as [|x xs IH]; [reflexivity|].
  rewrite !count_cons. simpl length.
  destruct (qle (8#10) x) eqn:E1; destruct (qle (6#10) x) eqn:E2;
  destruct (qlt x (8#10)) eqn:E3; destruct (qle (4#10) x) eqn:E4;
  destruct (qlt x (6#10)) eqn:E5; destruct (qlt x (4#10)) eqn:E6;
  repeat match goal with
         | H : qle _ _ = true |- _ => apply qle_spec in H
         | H : qle _ _ = false |- _ => apply qle_false in H
         | H : qlt _ _ = true |- _ => apply qlt_spec in H
         | H : qlt _ _ = false |- _ => apply qlt_false in H
         end;
  simpl; try lia; exfalso; lra.
Qed.

Lemma ss_snoc {T} (R : T -> T -> Prop) (l : list T) (x : T) :
  StronglySorted R l -> Forall (fun y => R y x) l -> StronglySorted R (l ++ [x]).
Proof.
  induction l as [|y l IH]; intros Hs Hf; simpl.
  - repeat constructor.
  - inversion Hs as [|? ? Hl Hy]; subst. inversion Hf as [|? ? Hyx Hf']; subst.
    constructor; [apply IH; assumption|].
    apply Forall_app. split; [exact Hy | constructor; [exact Hyx | constructor]].
Qed.

Lemma ss_skipn {T} (R : T -> T -> Prop) (n : nat) :
  forall l, StronglySorted R l -> StronglySorted R (skipn n l).
Proof.
  induction n as [|n IH]; intros l Hs; [exact Hs|].
  destruct l as [|y l]; [constructor|]. simpl.
  apply IH. inversion Hs; assumption.
Qed.

Lemma forall_filter {T} (Q0 P : T -> Prop) `{forall x, Decision (P x)} (l : list T) :
  Forall Q0 l -> Forall Q0 (filter P l).
Proof.
  induction l as [|y l IH]; intros Hf; [constructor|].
  inversion Hf; subst. rewrite filter_cons.
  case_decide; [constructor|]; auto.
Qed.

Lemma ss_filter {T} (R : T -> T -> Prop) (P : T -> Prop) `{forall x, Decision (P x)}
    (l : list T) :
  StronglySorted R l -> StronglySorted R (filter P l).
Proof.
  induction l as [|y l IH]; intros Hs; [constructor|].
  inversion Hs as [|? ? Hl Hy]; subst. rewrite filter_cons.
  case_decide; [|apply IH; exact Hl].
  constructor; [apply IH; exact Hl|].
  apply forall_filter. exact Hy.
Qed.

Lemma earliest_sorted (e : hentry) (es : list hentry) :
  Forall (fun b => h_timestamp e <= h_timestamp b) es -> earliest e es = e.
Proof.
  unfold earliest. induction es as [|b es IH]; intros Hf; simpl; [reflexivity|].
  inversion Hf as [|? ? Hb Hf']; subst.
  replace (qlt (h_timestamp b) (h_timestamp e)) with false
    by (symmetry; apply qlt_false; exact Hb).
  apply IH. exact Hf'.
Qed.

Lemma last_cons_default {T} (b : T) (bs : list T) (d : T) :
  List.last (b :: bs) d = List.last bs b.
Proof.
  revert b d. induction bs as [|c bs IH]; intros b d; [reflexivity|].
  change (List.last (c :: bs) d = List.last (c :: bs) b).
  rewrite (IH c d), (IH c b). reflexivity.
Qed.

Lemma latest_sorted (es : list hentry) :
  forall e, StronglySorted (fun a b => h_timestamp a <= h_timestamp b) (e :: es) ->
  latest e es = List.last es e.
Proof.
  unfold latest. induction es as [|b es IH]; intros e Hs; simpl; [reflexivity|].
  inversion Hs as [|? ? Hl He]; subst. inversion He as [|? ? Heb _]; subst.
  replace (qle (h_timestamp e) (h_timestamp b)) with true
    by (symmetry; apply qle_spec; exact Heb).
  rewrite IH by exact Hl. symmetry. apply last_cons_default.
Qed.

Lemma last_map {T U} (f : T -> U) (l : list T) (d : T) :
  List.last (map f l) (f d) = f (List.last l d).
Proof.
  revert d. induction l as [|x l IH]; intros d; [reflexivity|].
  rewrite last_cons_default. simpl map. rewrite last_cons_default. apply IH.
Qed.

(** Every creator's list is sorted by timestamp and bounded by [T]. *)
Lemma store_keeps_sorted (h : quality_history) (T : Q) cid s f t :
  (forall k l, hist_lookup k h = Some l ->
     StronglySorted (fun a b => h_timestamp a <= h_timestamp b) l
     /\ Forall (fun e => h_timestamp e <= T) l) ->
  T <= t ->
  forall k l, hist_lookup k (store_quality_history h cid s f t) = Some l ->
     StronglySorted (fun a b => h_timestamp a <= h_timestamp b) l
     /\ Forall (fun e => h_timestamp e <= t) l.
Proof.
  intros Hinv HT k l Hl. unfold store_quality_history in Hl.
  rewrite hist_lookup_update in Hl.
  destruct (String.eqb k (default "unknown" (f_creator_id f))).
  - injection Hl as <-.
    set (old := default [] (hist_lookup (default "unknown" (f_creator_id f)) h)).
    assert (Hold : StronglySorted (fun a b => h_timestamp a <= h_timestamp b) old
                   /\ Forall (fun e => h_timestamp e <= T) old).
    { unfold old. destruct (hist_lookup _ h) as [l0|] eqn:E.
      - exact (Hinv _ _ E).
      - split; constructor. }
    destruct Hold as [Hs Hf]. unfold last_n. split.
    + apply ss_skipn, ss_snoc; [exact Hs|].
      eapply Forall_impl; [exact Hf|]. simpl. intros e He. cbv beta in *. lra.
    + apply Forall_drop, Forall_app. split.
      * eapply Forall_impl; [exact Hf|]. intros e He. cbv beta in *. lra.
      * constructor; [simpl; lra | constructor].
  - destruct (Hinv _ _ Hl) as [Hs Hf]. split; [exact Hs|].
    eapply Forall_impl; [exact Hf|]. intros e He. cbv beta in *. lra.
Qed.

Lemma forall_times (P : Q -> Prop) (calls : list (string * Q * features * Q)) :
  Forall P (map (fun c : string * Q * features * Q => let '(_, _, _, tm) := c in tm) calls) ->
  Forall (fun c : string * Q * features * Q => let '(_, _, _, tm) := c in P tm) calls.
Proof.
  induction calls as [|[[[? ?] ?] ?] calls IH]; intros Hf; [constructor|].
  inversion Hf; subst. constructor; auto.
Qed.

Lemma store_all_sorted (calls : list (string * Q * features * Q)) :
  forall h T,
    (forall k l, hist_lookup k h = Some l ->
       StronglySorted (fun a b => h_timestamp a <= h_timestamp b) l
       /\ Forall (fun e => h_timestamp e <= T) l) ->
    Forall (fun c : string * Q * features * Q => let '(_, _, _, tm) := c in T <= tm) calls ->
    StronglySorted Qle (map (fun c : string * Q * features * Q => let '(_, _, _, tm) := c in tm) calls) ->
    forall k l, hist_lookup k (store_all h calls) = Some l ->
       StronglySorted (fun a b => h_timestamp a <= h_timestamp b) l.
Proof.
  induction calls as [|[[[cid s] f] t] calls IH]; intros h T Hinv Hge Hs k l Hl.
  - exact (proj1 (Hinv _ _ Hl)).
  - cbn [map] in Hs. inversion Hs as [|? ? Hs' Hhd]; subst.
    inversion Hge as [|? ? HTt _]; subst.
    unfold store_all in Hl. simpl in Hl.
    apply (IH (store_quality_history h cid s f t) t) with (k := k).
    + apply (store_keeps_sorted h T); assumption.
    + apply forall_times. exact Hhd.
    + exact Hs'.
    + exact Hl.
Qed.

End TrendExtra.

Section TrendTheorems.
Import Quality Trends ScorerStatus.

(** A trend report counts every score of the window in exactly one
    bucket of the distribution, the buckets adding up to [total_content];
    the window is not empty, and "improving" needs at least two entries. *)
Theorem trends_report_consistent (h : quality_history) (cid : option string)
    (tr : string) (now : Q) (t : trends) :
  get_quality_trends h cid tr now = TrendReport cid tr t ->
  (dist_excellent t + dist_good t + dist_fair t + dist_poor t = total_content t)%nat
  /\ (1 <= total_content t)%nat
  /\ (score_trend t = "improving"%string -> (2 <= total_content t)%nat).
Proof.
  intros H. unfold get_quality_trends in H.
  destruct (py_int (rstrip_d tr)) as [days|e]; [|discriminate H]. cbv zeta in H.
  set (w := filter _ _) in H.
  destruct (map h_score w) as [|s0 ss] eqn:Hm; [discriminate H|].
  inversion H; subst; clear H.
  assert (Hlen : length w = length (s0 :: ss)) by (rewrite <- Hm, length_map; reflexivity).
  split; [|split];
    cbn [dist_excellent dist_good dist_fair dist_poor total_content score_trend].
  - rewrite Hlen. apply dist_partition.
  - rewrite Hlen. cbn [length]. lia.
  - rewrite Hlen. intros Hx.
    destruct ss as [|s1 ss]; [discriminate Hx | cbn [length]; lia].
Qed.

Lemma trends_report_consistent_witness :
  exists t,
    get_quality_trends
      (store_all [] [("c1", 1#2, features_of_creator "A", 1);
                     ("c2", 9#10, features_of_creator "B", 2)]) None "7d" 10
    = TrendReport None "7d" t
    /\ (dist_excellent t + dist_good t + dist_fair t + dist_poor t = total_content t)%nat
    /\ (1 <= total_content t)%nat
    /\ (score_trend t = "improving"%string -> (2 <= total_content t)%nat).
Proof.
  eexists. split; [reflexivity|].
  apply (trends_report_consistent
           (store_all [] [("c1", 1#2, features_of_creator "A", 1);
                          ("c2", 9#10, features_of_creator "B", 2)]) None "7d" 10).
  reflexivity.
Defined.

(** For a query about one creator, on a history filled by
    [_store_quality_history] calls with a clock that does not go back, the
    reported [score_trend] compares the chronologically first and last
    scores of the window: each creator's list is kept in time order. *)
Theorem creator_trend_chronological (calls : list (string * Q * features * Q))
    (cid : string) (tr : string) (now : Q) (days : Z) (t : trends) :
  StronglySorted Qle (map (fun c : string * Q * features * Q => let '(_, _, _, tm) := c in tm) calls) ->
  cid <> ""%string ->
  py_int (rstrip_d tr) = Ok days ->
  get_quality_trends (store_all [] calls) (Some cid) tr now = TrendReport (Some cid) tr t ->
  score_trend t
  = spec_score_trend
      (filter (fun e => qlt (now - inject_Z days * 86400) (h_timestamp e))
         (default [] (hist_lookup cid (store_all [] calls)))).
Proof.
  intros Hs Hc Hd H. unfold get_quality_trends in H. rewrite Hd in H. cbv zeta in H.
  replace (truthy_str (Some cid)) with true in H
    by (simpl; destruct (String.eqb_spec cid ""); [congruence|reflexivity]).
  change (default "" (Some cid)) with cid in H.
  assert (Hl : StronglySorted (fun a b => h_timestamp a <= h_timestamp b)
                 (default [] (hist_lookup cid (store_all [] calls)))).
  { destruct (hist_lookup cid (store_all [] calls)) as [l|] eqn:E; [|constructor].
    destruct calls as [|c0 cs].
    - discriminate E.
    - apply (store_all_sorted (c0 :: cs) [] (let '(_, _, _, tm) := c0 in tm)) with cid;
        [intros k l0 Hk; discriminate Hk | | exact Hs | exact E].
      constructor.
      + destruct c0 as [[[? ?] ?] ?]. simpl. lra.
      + destruct c0 as [[[? ?] ?] ?]. cbn [map] in Hs. inversion Hs as [|? ? _ Hhd]; subst.
        apply forall_times in Hhd. eapply Forall_impl; [exact Hhd|].
        intros [[[? ?] ?] ?]. simpl. lra. }
  set (w := filter _ (default [] (hist_lookup cid (store_all [] calls)))) in *.
  assert (Hw : StronglySorted (fun a b => h_timestamp a <= h_timestamp b) w)
    by (apply ss_filter; exact Hl).
  destruct w as [|e es] eqn:Hwe; [discriminate H|].
  simpl in H. inversion H; subst; clear H. simpl.
  unfold spec_score_trend.
  inversion Hw as [|? ? Hes He]; subst.
  rewrite earliest_sorted by exact He. rewrite latest_sorted by exact Hw.
  destruct es as [|e1 es]; [reflexivity|].
  rewrite <- (last_map h_score (e1 :: es) e). reflexivity.
Qed.

Lemma creator_trend_chronological_witness :
  exists t,
    StronglySorted Qle (map (fun c : string * Q * features * Q => let '(_, _, _, tm) := c in tm)
      [("c1", 1#2, features_of_creator "A", 1); ("c2", 9#10, features_of_creator "A", 2)])
    /\ "A"%string <> ""%string
    /\ py_int (rstrip_d "7d") = Ok 7%Z
    /\ get_quality_trends
         (store_all [] [("c1", 1#2, features_of_creator "A", 1);
                        ("c2", 9#10, features_of_creator "A", 2)]) (Some "A") "7d" 10
       = TrendReport (Some "A") "7d" t
    /\ score_trend t
       = spec_score_trend
           (filter (fun e => qlt (10 - inject_Z 7 * 86400) (h_timestamp e))
              (default [] (hist_lookup "A"
                 (store_all [] [("c1", 1#2, features_of_creator "A", 1);
                                ("c2", 9#10, features_of_creator "A", 2)])))).
Proof.
  eexists.
  assert (Hs : StronglySorted Qle (map (fun c : string * Q * features * Q => let '(_, _, _, tm) := c in tm)
      [("c1", 1#2, features_of_creator "A", 1); ("c2", 9#10, features_of_creator "A", 2)]))
    by (simpl; repeat constructor; lra).
  assert (Hc : "A"%string <> ""%string) by discriminate.
  assert (Hd : py_int (rstrip_d "7d") = Ok 7%Z) by reflexivity.
  split; [exact Hs|]. split; [exact Hc|]. split; [exact Hd|].
  split; [reflexivity|].
  apply (creator_trend_chronological _ "A" "7d" 10 7); [exact Hs | exact Hc | exact Hd |].
  reflexivity.
Defined.

End TrendTheorems.

Section FraudExtra.
Import Fraud.

Lemma aggregate_types cid d a eng beh q m :
  map ind_type (fr_fraud_indicators (aggregate cid d a eng beh q m)) =
  (if qlt SIMILARITY_THRESHOLD d then ["duplicate_content"%string] else [])
  ++ (if qlt AI_CONTENT_CONFIDENCE_THRESHOLD a then ["undisclosed_ai_content"%string] else [])
  ++ (if eng_detected eng then ["engagement_manipulation"%string] else [])
  ++ (if beh_suspicious beh then ["suspicious_behavior"%string] else [])
  ++ (if qual_detected q then ["quality_inconsistency"%string] else [])
  ++ (if meta_detected m then ["metadata_manipulation"%string] else []).
Proof.
  unfold aggregate.
  destruct (qlt SIMILARITY_THRESHOLD d), (qlt AI_CONTENT_CONFIDENCE_THRESHOLD a),
    (eng_detected eng), (beh_suspicious beh), (qual_detected q), (meta_detected m);
    reflexivity.
Qed.


Lemma ai_check_zero (c : content) (e : env) :
  ai_draw e <= 7#10 -> detect_undisclosed_ai_content c e = 0.
Proof.
  intros H. unfold detect_undisclosed_ai_content. cbv zeta.
  replace (qlt (7#10) (ai_draw e)) with false by (symmetry; apply qlt_false; exact H).
  reflexivity.
Qed.

Lemma check_duplicate_score md5 (self : detector) (c : content) (e : env) :
  fst (check_duplicate_content md5 self c e)
  = if decide (generate_content_hash md5 c ∈ content_hashes self) then 1 else dup_draw e.
Proof. unfold check_duplicate_content. destruct (decide _); reflexivity. Qed.



Lemma last_n_snoc_eq {T} (n : nat) (l : list T) (x : T) :
  last_n (S n) (l ++ [x]) = last_n n l ++ [x].
Proof.
  unfold last_n. rewrite skipn_app, length_app. cbn [length].
  replace (length l + 1 - S n - length l)%nat with 0%nat by lia.
  replace (length l + 1 - S n)%nat with (length l - n)%nat by lia.
  reflexivity.
Qed.


End FraudExtra.

Section FraudTheorems.
Import Fraud.

(** With the random draws inside the ranges the code draws them from
    ([uniform(0.0, 0.3)] for near-duplicates, [uniform(0.1, 0.4)] for AI
    content), [detect_content_fraud] never reports undisclosed AI content,
    and reports duplicate content exactly when the content's hash was
    already registered in the detector. *)
Theorem detect_content_fraud_random_checks md5 (self : detector) (e : env) (c : content) :
  dup_draw e <= 3#10 -> ai_draw e <= 4#10 ->
  ~ In "undisclosed_ai_content"%string
      (map ind_type (fr_fraud_indicators (fst (detect_content_fraud md5 self e c))))
  /\ (In "duplicate_content"%string
        (map ind_type (fr_fraud_indicators (fst (detect_content_fraud md5 self e c))))
      <-> generate_content_hash md5 c ∈ content_hashes self).
Proof.
  intros Hd Ha. unfold detect_content_fraud.
  pose proof (check_duplicate_score md5 self c e) as Hs.
  destruct (check_duplicate_content md5 self c e) as [d s1]. cbn [fst] in Hs.
  destruct (analyze_creator_behavior s1 (creator_id c) c e) as [b s2].
  cbn [fst]. rewrite aggregate_types, ai_check_zero by lra.
  replace (qlt AI_CONTENT_CONFIDENCE_THRESHOLD 0) with false by reflexivity.
  assert (Hdup : qlt SIMILARITY_THRESHOLD d
                 = bool_decide (generate_content_hash md5 c ∈ content_hashes self)).
  { rewrite Hs. destruct (decide _) as [Hin|Hnin].
    - rewrite bool_decide_true by exact Hin. reflexivity.
    - rewrite bool_decide_false by exact Hnin. apply qlt_false.
      unfold SIMILARITY_THRESHOLD. lra. }
  rewrite Hdup. case_bool_decide as Hh;
  destruct (eng_detected _), (beh_suspicious b), (qual_detected _), (meta_detected _);
  cbn [app In]; intuition congruence.
Qed.

Lemma detect_content_fraud_random_checks_witness :
  let c := mkContent "c1" "u1" "t" "d" [] 100 1 0 0 (1#2)
             (mkMetadata None None None (Some "t") (Some "d") (Some 30)) in
  let e := mkEnv 1000 (1#10) (2#10) (1#2) in
  (dup_draw e <= 3#10 /\ ai_draw e <= 4#10)
  /\ ~ In "undisclosed_ai_content"%string
      (map ind_type (fr_fraud_indicators (fst (detect_content_fraud (fun s => s) init e c))))
  /\ (In "duplicate_content"%string
        (map ind_type (fr_fraud_indicators (fst (detect_content_fraud (fun s => s) init e c))))
      <-> generate_content_hash (fun s => s) c ∈ content_hashes init).
Proof.
  intros c e.
  assert (Hd : dup_draw e <= 3#10) by (simpl; lra).
  assert (Ha : ai_draw e <= 4#10) by (simpl; lra).
  split; [split; assumption|].
  exact (detect_content_fraud_random_checks (fun s => s) init e c Hd Ha).
Defined.

(** [_detect_engagement_fraud] reports [detected] exactly when at least
    two of its three anomalies are present: each alone contributes at
    most 0.5, which is not above the 0.5 threshold. *)
Theorem engagement_detected_iff_two_anomalies (c : content) (e : env) :
  eng_detected (detect_engagement_fraud c e)
  = Nat.leb 2 (length (eng_anomalies (detect_engagement_fraud c e))).
Proof.
  unfold detect_engagement_fraud.
  destruct (if qlt 0 (views c) then _ else _) as [lr cr].
  destruct (qlt (3#10) lr), (qlt (1#10) cr), (qlt (8#10) (velocity_draw e)); reflexivity.
Qed.

(** [_analyze_creator_behavior] reports the creator as suspicious exactly
    when more than 10 stored uploads fall within the last hour: the
    quality-variance pattern alone (0.2) never passes the 0.3 threshold. *)
Theorem behavior_suspicious_iff_upload_rate (self : detector) (cr : string)
    (c : content) (e : env) :
  beh_suspicious (fst (analyze_creator_behavior self cr c e))
  = Nat.ltb 10 (length (filter (fun u => qlt (now e - u) 3600)
      (upload_frequency (default empty_history (user_behavior_patterns self !! cr))))).
Proof.
  unfold analyze_creator_behavior. cbv zeta.
  destruct (Nat.ltb 10 _), (Nat.ltb 5 _ && _); reflexivity.
Qed.


End FraudTheorems.

Section UserFraudExtra.
Import UserFraud.

Lemma bot_score_le (ud : user_data) : qlt (8#10) (detect_bot_behavior ud) = false.
Proof.
  unfold detect_bot_behavior. cbv zeta.
  destruct (Nat.ltb 5 _); [destruct (qlt _ 100)|];
    try reflexivity; destruct (_ && _); reflexivity.
Qed.

Lemma filter_all_true {T} (f : T -> bool) (l : list T) :
  (forall x, In x l -> f x = true) -> List.filter f l = l.
Proof.
  induction l as [|x l IH]; intros H; [reflexivity|]. simpl.
  rewrite (H x (or_introl eq_refl)). f_equal. apply IH. intros y Hy. apply H. right. exact Hy.
Qed.

Lemma upload_many_from (ts : list Q) :
  forall (st : patterns) (uid : string) (prev lqs : list Q),
    st !! uid = Some (UploadPattern prev lqs) ->
    (forall u t, In u (prev ++ ts) -> In t ts -> t - u < 3600) ->
    fst (check_upload_rate_many st uid ts)
    = map (fun k => if Nat.ltb 10 k then 8#10 else 0) (seq (S (length prev)) (length ts)).
Proof.
  induction ts as [|t ts IH]; intros st uid prev lqs Hst Hw; [reflexivity|].
  cbn [check_upload_rate_many]. unfold check_upload_rate_abuse at 1. rewrite Hst.
  rewrite (filter_all_true _ prev).
  2:{ intros u Hu. apply qlt_spec. apply Hw; [apply in_or_app; left; exact Hu | left; reflexivity]. }
  set (st1 := <[uid := UploadPattern (prev ++ [t]) lqs]> st).
  assert (Hrest : fst (check_upload_rate_many st1 uid ts)
                  = map (fun k => if Nat.ltb 10 k then 8#10 else 0)
                        (seq (S (length (prev ++ [t]))) (length ts))).
  { apply (IH st1 uid (prev ++ [t]) lqs).
    - apply lookup_insert_eq.
    - intros u t' Hu Ht'. apply Hw.
      + rewrite <- app_assoc in Hu. exact Hu.
      + right. exact Ht'. }
  rewrite length_app in Hrest. cbn [length] in Hrest.
  replace (length prev + 1)%nat with (S (length prev)) in Hrest by lia.
  assert (Hl : length (prev ++ [t]) = S (length prev)) by (rewrite length_app; cbn [length]; lia).
  destruct (Nat.ltb UPLOAD_RATE_LIMIT (length (prev ++ [t]))) eqn:E;
    destruct (check_upload_rate_many st1 uid ts) as [ss st2] eqn:Hm;
    cbn [fst] in Hrest |- *; rewrite Hrest; cbn [length seq map];
    unfold UPLOAD_RATE_LIMIT in E; rewrite Hl in E; rewrite E; reflexivity.
Qed.

End UserFraudExtra.

Section UserFraudTheorems.
Import UserFraud.

(** [detect_user_fraud] never reports [bot_behavior]: [_detect_bot_behavior]
    returns 0.0, 0.7 or 0.8, never more than the 0.8 threshold. *)
Theorem user_fraud_no_bot_indicator (st : patterns) (uid : string) (ud : user_data) (now : Q) :
  ~ In "bot_behavior"%string (map fst (uf_fraud_indicators (fst (detect_user_fraud st uid ud now)))).
Proof.
  unfold detect_user_fraud.
  destruct (check_upload_rate_abuse st uid now) as [u st'].
  cbv zeta. rewrite bot_score_le.
  destruct (qlt (7#10) u), (qlt (6#10) (detect_fake_engagement ud)),
    (qlt (check_account_authenticity ud) (4#10));
    cbn [fst uf_fraud_indicators app map In]; intuition congruence.
Qed.

(** [detect_user_fraud] marks a user as fraudulent exactly when at least
    two indicators are reported: every single contribution is at most 0.4,
    every pair at least 0.6, against the 0.5 threshold. *)
Theorem user_fraud_iff_two_indicators (st : patterns) (uid : string) (ud : user_data) (now : Q) :
  is_fraudulent (fst (detect_user_fraud st uid ud now))
  = Nat.leb 2 (length (uf_fraud_indicators (fst (detect_user_fraud st uid ud now)))).
Proof.
  unfold detect_user_fraud.
  destruct (check_upload_rate_abuse st uid now) as [u st'].
  cbv zeta.
  destruct (qlt (7#10) u), (qlt (8#10) (detect_bot_behavior ud)),
    (qlt (6#10) (detect_fake_engagement ud)),
    (qlt (check_account_authenticity ud) (4#10)); reflexivity.
Qed.

(** An account at least 24 days old is never reported as [fake_account],
    whatever its profile: its age score alone is at least 0.8, so the
    authenticity score is at least 0.4. *)
Theorem user_fraud_old_account_not_fake (st : patterns) (uid : string) (ud : user_data) (now : Q) :
  24 <= account_age_days ud ->
  ~ In "fake_account"%string (map fst (uf_fraud_indicators (fst (detect_user_fraud st uid ud now)))).
Proof.
  intros Hage.
  assert (Ha : qlt (check_account_authenticity ud) (4#10) = false).
  { apply qlt_false. unfold check_account_authenticity. cbv zeta.
    assert (Hpm : 4#5 <= py_min (account_age_days ud / 30) 1).
    { unfold py_min. destruct (qlt 1 (account_age_days ud / 30)) eqn:E; [lra|].
      unfold Qdiv. change (/ 30) with (1#30). lra. }
    generalize dependent (py_min (account_age_days ud / 30) 1). intros a Ha.
    destruct (avatar ud), (bio ud), (verified_email ud), (social_links ud);
      unfold Qdiv; change (/ 2) with (1#2); lra. }
  unfold detect_user_fraud.
  destruct (check_upload_rate_abuse st uid now) as [u st'].
  cbv zeta. rewrite Ha.
  destruct (qlt (7#10) u), (qlt (8#10) (detect_bot_behavior ud)),
    (qlt (6#10) (detect_fake_engagement ud));
    cbn [fst uf_fraud_indicators app map In]; intuition congruence.
Qed.

Lemma user_fraud_old_account_not_fake_witness :
  let ud := mkUserData [] [] 0 0 0 false false false false 30 in
  24 <= account_age_days ud
  /\ ~ In "fake_account"%string (map fst (uf_fraud_indicators (fst (detect_user_fraud ∅ "u" ud 0)))).
Proof.
  intros ud. assert (H : 24 <= account_age_days ud) by (simpl; lra).
  split; [exact H|]. exact (user_fraud_old_account_not_fake ∅ "u" ud 0 H).
Defined.

(** For a user with no stored pattern, successive [_check_upload_rate_abuse]
    calls whose clock readings all lie within less than an hour of each
    other return 0.0 for the first ten calls and 0.8 from the eleventh on. *)
Theorem upload_rate_limit_sequence (st : patterns) (uid : string) (ts : list Q) :
  st !! uid = None ->
  (forall u t, In u ts -> In t ts -> t - u < 3600) ->
  fst (check_upload_rate_many st uid ts)
  = map (fun k => if Nat.ltb 10 k then 8#10 else 0) (seq 1 (length ts)).
Proof.
  intros Hst Hw. destruct ts as [|t ts]; [reflexivity|].
  cbn [check_upload_rate_many]. unfold check_upload_rate_abuse at 1. rewrite Hst.
  cbn [List.filter app length]. unfold UPLOAD_RATE_LIMIT. cbn [Nat.ltb Nat.leb].
  pose proof (upload_many_from ts (<[uid := UploadPattern [t] []]> st) uid [t] []
                (lookup_insert_eq _ _ _)) as Hm.
  destruct (check_upload_rate_many (<[uid := UploadPattern [t] []]> st) uid ts) as [ss st2].
  cbn [fst] in Hm |- *. rewrite Hm; [reflexivity|].
  intros u t' Hu Ht'. apply Hw; [exact Hu | right; exact Ht'].
Qed.

Lemma upload_rate_limit_sequence_witness :
  let ts := [0; 1; 2; 3; 4; 5; 6; 7; 8; 9; 10; 11] in
  (∅ : patterns) !! "u"%string = None
  /\ (forall u t, In u ts -> In t ts -> t - u < 3600)
  /\ fst (check_upload_rate_many ∅ "u" ts)
     = map (fun k => if Nat.ltb 10 k then 8#10 else 0) (seq 1 (length ts)).
Proof.
  intros ts.
  assert (H1 : (∅ : patterns) !! "u"%string = None) by apply lookup_empty.
  assert (H2 : forall u t, In u ts -> In t ts -> t - u < 3600).
  { assert (Hb : forall x, In x ts -> 0 <= x <= 11).
    { intros x Hx. unfold ts in Hx. cbn [In] in Hx.
      repeat (destruct Hx as [<-|Hx]; [lra|]). destruct Hx. }
    intros u t Hu Ht. apply Hb in Hu, Ht. lra. }
  split; [exact H1|]. split; [exact H2|].
  exact (upload_rate_limit_sequence ∅ "u" ts H1 H2).
Defined.

(** A pattern written by [_analyze_creator_behavior] (no [uploads] key)
    under the same id turns the upload-rate check of [detect_user_fraud]
    off: the [KeyError] is caught, no [upload_rate_abuse] indicator is
    reported and the stored patterns are left unchanged. *)
Theorem user_fraud_creator_pattern_skips_upload_check (st : patterns) (uid : string)
    (h : Fraud.history) (ud : user_data) (now : Q) :
  st !! uid = Some (CreatorPattern h) ->
  snd (detect_user_fraud st uid ud now) = st
  /\ ~ In "upload_rate_abuse"%string
         (map fst (uf_fraud_indicators (fst (detect_user_fraud st uid ud now)))).
Proof.
  intros Hst. unfold detect_user_fraud, check_upload_rate_abuse. rewrite Hst.
  cbv zeta. replace (qlt (7#10) 0) with false by reflexivity.
  destruct (qlt (8#10) (detect_bot_behavior ud)),
    (qlt (6#10) (detect_fake_engagement ud)),
    (qlt (check_account_authenticity ud) (4#10));
    cbn [fst snd uf_fraud_indicators app map In]; (split; [reflexivity|]); intuition congruence.
Qed.

Lemma user_fraud_creator_pattern_skips_upload_check_witness :
  let st : patterns := <["u" := CreatorPattern Fraud.empty_history]> ∅ in
  let ud := mkUserData [] [] 0 0 0 false false false false 0 in
  st !! "u"%string = Some (CreatorPattern Fraud.empty_history)
  /\ snd (detect_user_fraud st "u" ud 0) = st
  /\ ~ In "upload_rate_abuse"%string
         (map fst (uf_fraud_indicators (fst (detect_user_fraud st "u" ud 0)))).
Proof.
  intros st ud.
  assert (H : st !! "u"%string = Some (CreatorPattern Fraud.empty_history))
    by apply lookup_insert_eq.
  split; [exact H|].
  exact (user_fraud_creator_pattern_skips_upload_check st "u" Fraud.empty_history ud 0 H).
Defined.

End UserFraudTheorems.

Section AppExtra.
Import App AppMore.

Lemma call_assess_risk_raises fm (a b : pyval) :
  call_fraud_detector fm "assess_risk" a b = Raise "AttributeError".
Proof. reflexivity. Qed.

(** The three ways [analyze_content] can end. *)
Lemma analyze_content_cases ef cs fm ak (cm : Cache.manager pyval) (data : pyval) (now : Q) :
  (exists r, analyze_content ef cs fm ak cm data now = (r, cm)
             /\ match r with Resp s _ => s <> 200%Z end)
  \/ (exists k r, analyze_content ef cs fm ak cm data now = (r, snd (Cache.get cm k now))
             /\ match r with Resp s _ => s <> 200%Z end)
  \/ (exists k v, analyze_content ef cs fm ak cm data now = (Resp 200 v, snd (Cache.get cm k now))
             /\ fst (Cache.get cm k now) = Some v /\ py_truthy v = true).
Proof.
  unfold analyze_content.
  destruct (py_all_in required_fields data) as [[|]|e].
  - destruct (py_getitem data "content_id") as [cid|e];
      [|left; eexists; split; [reflexivity|]; discriminate].
    destruct (Cache.get cm (ak cid) now) as [cached cm1] eqn:Hg.
    assert (Han : exists e,
      (match (let! features := ef data in
              let! quality_scores := cs features in
              let! fraud_score := call_fraud_detector fm "assess_risk" data features in
              build_assessment cid features quality_scores fraud_score) with
       | Ok assessment =>
           (Resp 200 assessment, snd (Cache.set cm1 (ak cid) assessment None now))
       | Raise e => (internal_error e, cm1)
       end) = (internal_error e, cm1)).
    { destruct (ef data) as [f|e]; cbn [exc_bind]; [|exists e; reflexivity].
      destruct (cs f) as [q|e]; cbn [exc_bind]; [|exists e; reflexivity].
      rewrite call_assess_risk_raises. exists "AttributeError"%string. reflexivity. }
    destruct Han as [e Han]. rewrite Han.
    destruct cached as [v|]; [destruct (py_truthy v) eqn:Ht|].
    + right; right. exists (ak cid), v. rewrite Hg. split; [reflexivity|]. split; [reflexivity|exact Ht].
    + right; left. exists (ak cid), (internal_error e). rewrite Hg. split; [reflexivity|]. discriminate.
    + right; left. exists (ak cid), (internal_error e). rewrite Hg. split; [reflexivity|]. discriminate.
  - destruct (py_keys data); left; eexists; (split; [reflexivity|]); discriminate.
  - left; eexists; split; [reflexivity|]; discriminate.
Qed.

Lemma cache_get_init (ttl : Q) (k : string) (now : Q) :
  Cache.get (Cache.init ttl : Cache.manager pyval) k now = (None, Cache.init ttl).
Proof. unfold Cache.get. simpl. rewrite lookup_empty. reflexivity. Qed.

End AppExtra.

Section AppTheorems.
Import App AppMore.

(** [analyze_content] never stores an analysis in the cache, because
    [fraud_detector.assess_risk] does not exist: the cache it leaves is
    the one it got or the one its lookup left, and a 200 response is
    always a truthy value found in the cache. *)
Theorem analyze_content_never_stores ef cs fm ak (cm : Cache.manager pyval) (data : pyval) (now : Q) :
  (snd (analyze_content ef cs fm ak cm data now) = cm
   \/ exists k, snd (analyze_content ef cs fm ak cm data now) = snd (Cache.get cm k now))
  /\ (forall body, fst (analyze_content ef cs fm ak cm data now) = Resp 200 body ->
        exists k, fst (Cache.get cm k now) = Some body /\ py_truthy body = true).
Proof.
  destruct (analyze_content_cases ef cs fm ak cm data now)
    as [[r [E Hr]]|[[k [r [E Hr]]]|[k [v [E [Hv Ht]]]]]]; rewrite E; cbn [fst snd].
  - split; [left; reflexivity|]. intros body ->. exfalso. apply Hr. reflexivity.
  - split; [right; exists k; reflexivity|]. intros body ->. exfalso. apply Hr. reflexivity.
  - split; [right; exists k; reflexivity|]. intros body Hb. injection Hb as <-.
    exists k. split; assumption.
Qed.

(** Starting from an empty cache, a run of [analyze_content] requests
    never gets a 200 response and leaves the cache empty. *)
Theorem analyze_contents_from_empty_cache ef cs fm ak (ttl : Q) (reqs : list (pyval * Q)) :
  Forall (fun r => match r with Resp s _ => s <> 200%Z end)
    (fst (analyze_contents ef cs fm ak (Cache.init ttl) reqs))
  /\ snd (analyze_contents ef cs fm ak (Cache.init ttl) reqs) = Cache.init ttl.
Proof.
  induction reqs as [|[data now] reqs IH]; [split; [constructor|reflexivity]|].
  cbn [analyze_contents].
  destruct (analyze_content_cases ef cs fm ak (Cache.init ttl) data now)
    as [[r [E Hr]]|[[k [r [E Hr]]]|[k [v [E [Hv Ht]]]]]]; rewrite E.
  - destruct (analyze_contents ef cs fm ak (Cache.init ttl) reqs) as [rs cm'].
    destruct IH as [IH1 IH2]. split; [constructor; assumption | exact IH2].
  - rewrite cache_get_init. cbn [snd].
    destruct (analyze_contents ef cs fm ak (Cache.init ttl) reqs) as [rs cm'].
    destruct IH as [IH1 IH2]. split; [constructor; assumption | exact IH2].
  - rewrite cache_get_init in Hv. discriminate Hv.
Qed.


End AppTheorems.

Section RecommendationsExtra.
Import Quality.

Lemma recs_final (gw : string) (r1 r2 r3 r4 r5 : list string) :
  ~ In gw r1 -> ~ In gw r2 -> ~ In gw r3 -> ~ In gw r4 -> ~ In gw r5 ->
  let out := match r1 ++ r2 ++ r3 ++ r4 ++ r5 with [] => [gw] | _ => r1 ++ r2 ++ r3 ++ r4 ++ r5 end in
  out <> [] /\ (In gw out -> out = [gw] /\ r2 = [] /\ r3 = [] /\ r5 = []).
Proof.
  intros H1 H2 H3 H4 H5 out. unfold out.
  destruct (r1 ++ r2 ++ r3 ++ r4 ++ r5) as [|x xs] eqn:E.
  - apply app_eq_nil in E as [_ E]. apply app_eq_nil in E as [E2 E].
    apply app_eq_nil in E as [E3 E]. apply app_eq_nil in E as [_ E5].
    split; [discriminate|]. intros _. auto.
  - split; [discriminate|]. intros Hin. exfalso. rewrite <- E in Hin.
    repeat (apply in_app_or in Hin; destruct Hin as [Hin|Hin]); contradiction.
Qed.

End RecommendationsExtra.

Ltac not_in_recs :=
  let H := fresh in
  intros H;
  repeat match type of H with
         | In _ (_ ++ _) => apply in_app_or in H; destruct H as [H|H]
         | In _ (if ?b then _ else _) => destruct b
         | In _ [] => destruct H
         | In _ [_] => destruct H as [H|[]]; discriminate H
         end.

Section RecommendationsTheorems.
Import Quality.

(** [_generate_recommendations] never returns an empty list; the
    "Great work!" message only ever appears alone, and only when the
    educational and creativity scores are at least 0.5 and the safety
    score at least 0.7 (each of these adds a recommendation otherwise). *)
Theorem generate_recommendations_nonempty (f : features) (eng edu cre saf pro : Q) :
  let rs := generate_recommendations f eng edu cre saf pro in
  rs <> []
  /\ (In "Great work! Your content shows good quality across all dimensions"%string rs ->
      rs = ["Great work! Your content shows good quality across all dimensions"%string]
      /\ 5#10 <= edu /\ 5#10 <= cre /\ 7#10 <= saf).
Proof.
  unfold generate_recommendations. cbv zeta.
  match goal with
  | |- context [match ?a ++ ?b ++ ?c ++ ?d ++ ?e with [] => _ | _ :: _ => _ end] =>
      assert (Hb : b = [] -> 5#10 <= edu);
      [| assert (Hc : c = [] -> 5#10 <= cre);
      [| assert (He : e = [] -> 7#10 <= saf);
      [| pose proof (recs_final "Great work! Your content shows good quality across all dimensions"
                       a b c d e) as Hf ]]]
  end.
  - destruct (qlt edu (5#10)) eqn:E; intros Hx.
    + apply app_eq_nil in Hx as [_ Hx]. discriminate Hx.
    + apply qlt_false in E. exact E.
  - destruct (qlt cre (5#10)) eqn:E; intros Hx.
    + discriminate Hx.
    + apply qlt_false in E. exact E.
  - destruct (qlt saf (7#10)) eqn:E; intros Hx.
    + apply app_eq_nil in Hx as [_ Hx]. discriminate Hx.
    + apply qlt_false in E. exact E.
  - destruct Hf as [Hne Hgw]; [not_in_recs .. |].
    split; [exact Hne|]. intros Hin.
    destruct (Hgw Hin) as [Heq [H2 [H3 H5]]].
    split; [exact Heq|]. split; [|split]; auto.
Qed.

End RecommendationsTheorems.
